(** * LabFrame API: the FastAPI layer over the LabFrame core services

    A shallow embedding of [labframe_api/app.py].  Every route handler is a
    short program that calls methods of [services.samples] and turns their
    results and exceptions into HTTP responses.  The core services live in
    another package ([labframe_core]); here a handler is a tree of service
    invocations, and it is run against an arbitrary service implementation,
    which threads its own state and records the calls it receives. *)

From Stdlib Require Import ZArith List String Bool Lia.
Import ListNotations.

Open Scope string_scope.
Open Scope Z_scope.

Set Warnings "-register-all".

(** ** Values *)

(** What [model_dump()] and the handlers return: JSON-like Python values.
    A dict keeps its insertion order. *)
Inductive json : Type :=
| JNull
| JBool (b : bool)
| JInt (z : Z)
| JStr (s : string)
| JList (items : list json)
| JDict (entries : list (string * json)).

(** [datetime.date]. *)
Record date : Type := mkdate { year : Z; month : Z; day : Z }.

(** A pydantic model, as far as the handlers use it. *)
Class BaseModel (A : Type) : Type := model_dump : A -> json.

(** ** Exceptions *)

Inductive exc_class : Type :=
| UnknownSampleError
| DomainError
| OtherError (name : string).

Definition exc_class_eqb (a b : exc_class) : bool :=
  match a, b with
  | UnknownSampleError, UnknownSampleError => true
  | DomainError, DomainError => true
  | OtherError n, OtherError m => String.eqb n m
  | _, _ => false
  end.

(** An exception instance, reduced to what an [except] clause and [str()]
    observe: the classes it is an instance of (its own class and all its base
    classes) and its message. *)
Record exn : Type := mkexn { exn_classes : list exc_class; str : string }.

Definition isinstance (e : exn) (c : exc_class) : bool :=
  existsb (exc_class_eqb c) (exn_classes e).

(** A call either returns a value or raises. *)
Inductive outcome (A : Type) : Type :=
| Returned (a : A)
| Raised (e : exn).
Arguments Returned {A} a.
Arguments Raised {A} e.

(** ** HTTP *)

Definition HTTP_200_OK : Z := 200.
Definition HTTP_201_CREATED : Z := 201.
Definition HTTP_400_BAD_REQUEST : Z := 400.
Definition HTTP_404_NOT_FOUND : Z := 404.
Definition HTTP_422_UNPROCESSABLE_ENTITY : Z := 422.
Definition HTTP_500_INTERNAL_SERVER_ERROR : Z := 500.

(** How a handler function ends: it returns a body, raises [HTTPException],
    or lets an exception of the service escape. *)
Inductive handler_exit : Type :=
| Return (body : json)
| HTTPException (status_code : Z) (detail : string)
| Unhandled (e : exn).

(** What the client receives. *)
Inductive Response : Type :=
| JSONResponse (status_code : Z) (content : json)
| RequestValidationError
| ServerError (e : exn).

Definition status_of (r : Response) : Z :=
  match r with
  | JSONResponse status_code _ => status_code
  | RequestValidationError => HTTP_422_UNPROCESSABLE_ENTITY
  | ServerError _ => HTTP_500_INTERNAL_SERVER_ERROR
  end.

(** FastAPI around a handler: a returned body is sent with the route's status
    code, an [HTTPException] becomes a response with its own status code and
    [{"detail": ...}], any other exception is a server error. *)
Definition respond (route_status : Z) (x : handler_exit) : Response :=
  match x with
  | Return body => JSONResponse route_status body
  | HTTPException status_code detail =>
      JSONResponse status_code (JDict [("detail", JStr detail)])
  | Unhandled e => ServerError e
  end.

(** ** Query parameters *)

(** A query parameter as it arrives: left out, present but not convertible to
    the declared type, or present with a value of the declared type. *)
Inductive query_arg (A : Type) : Type :=
| Omitted
| Unparsable
| Supplied (a : A).
Arguments Omitted {A}.
Arguments Unparsable {A}.
Arguments Supplied {A} a.

(** [Query(default, ge=..., le=...)]. *)
Record Query (A : Type) : Type :=
  mkQuery { default : A; ge : option Z; le : option Z }.
Arguments mkQuery {A} default ge le.
Arguments default {A} q.
Arguments ge {A} q.
Arguments le {A} q.

Definition lower_ok (bound : option Z) (z : Z) : bool :=
  match bound with Some b => b <=? z | None => true end.

Definition upper_ok (bound : option Z) (z : Z) : bool :=
  match bound with Some b => z <=? b | None => true end.

(** Validation of a [bool] query parameter: the default stands in for an
    omitted one; [None] is a request validation error. *)
Definition validate_bool (q : Query bool) (arg : query_arg bool) : option bool :=
  match arg with
  | Omitted => Some (default q)
  | Unparsable => None
  | Supplied b => Some b
  end.

(** Validation of an [int] query parameter: the default is used as it is, a
    supplied value must satisfy the [ge] and [le] constraints. *)
Definition validate_int (q : Query Z) (arg : query_arg Z) : option Z :=
  match arg with
  | Omitted => Some (default q)
  | Unparsable => None
  | Supplied z => if lower_ok (ge q) z && upper_ok (le q) z then Some z else None
  end.

(** ** The core services, seen from the API *)

(** Objects with a [sample_id] attribute. *)
Class HasSampleId (A : Type) : Type := sample_id : A -> Z.

(** The DTO classes come from [labframe_core.app.dto].  The handlers only
    read [sample_id] from a sample, call [model_dump()] on what they return
    and pass the recorded parameters through, so the classes stay abstract. *)
Class Dto : Type := {
  SampleSummary : Type;
  SampleItem : Type;
  SampleParameterValueItem : Type;
  ParameterDefinitionItem : Type;
  SampleParameterValuePayload : Type;
  SampleSummary_model :: BaseModel SampleSummary;
  SampleSummary_id :: HasSampleId SampleSummary;
  SampleItem_model :: BaseModel SampleItem;
  SampleItem_id :: HasSampleId SampleItem;
  SampleParameterValueItem_model :: BaseModel SampleParameterValueItem;
  ParameterDefinitionItem_model :: BaseModel ParameterDefinitionItem
}.

(** What [copy_parameters_from_sample] returns: the handler reads these three
    attributes. *)
Record CopyResult `{Dto} : Type := mkCopyResult {
  sample : SampleItem;
  applied : Z;
  warnings : list string
}.
Arguments mkCopyResult {_} sample applied warnings.

(** The methods of [services.samples] with their arguments. *)
Inductive invocation `{Dto} : Type :=
| ListSamples (include_deleted : bool)
| CreateSample (prepared_on : date) (author_name : option string)
| CopyParametersFromSample (source_sample_id target_sample_id : Z)
| RecordParameters (sample_id : Z) (parameters : list SampleParameterValuePayload)
| GetSampleParameterValues (sample_id : Z)
| ListParameterDefinitions
| ListParameterValueHistory (parameter_name : string) (limit : Z).

(** The type of what each method returns. *)
Definition result_type `{Dto} (c : invocation) : Type :=
  match c with
  | ListSamples _ => list SampleSummary
  | CreateSample _ _ => SampleItem
  | CopyParametersFromSample _ _ => CopyResult
  | RecordParameters _ _ => SampleItem
  | GetSampleParameterValues _ => list SampleParameterValueItem
  | ListParameterDefinitions => list ParameterDefinitionItem
  | ListParameterValueHistory _ _ => list SampleParameterValueItem
  end.

(** A handler: it finishes, or calls a method and goes on with the outcome. *)
Inductive prog `{Dto} (A : Type) : Type :=
| Done (a : A)
| Invoke (c : invocation) (k : outcome (result_type c) -> prog A).
Arguments Done {_ A} a.
Arguments Invoke {_ A} c k.

Fixpoint bind `{Dto} {A B : Type} (p : prog A) (f : A -> prog B) : prog B :=
  match p with
  | Done a => f a
  | Invoke c k => Invoke c (fun r => bind (k r) f)
  end.

Definition fmap `{Dto} {A B : Type} (f : A -> B) (p : prog A) : prog B :=
  bind p (fun a => Done (f a)).

(** An implementation of the services over a state of its own. *)
Definition service `{Dto} (S : Type) : Type :=
  forall c : invocation, S -> outcome (result_type c) * S.

(** Running a handler against an implementation: the result, the final state
    and the calls made, in order. *)
Fixpoint run `{Dto} {S A : Type} (svc : service S) (p : prog A) (s : S)
  : A * S * list invocation :=
  match p with
  | Done a => (a, s, [])
  | Invoke c k =>
      let (r, s1) := svc c s in
      let '(a, s2, calls) := run svc (k r) s1 in
      (a, s2, c :: calls)
  end.

(** ** try / except *)

(** The [except] clauses of a [try] statement, tried in order; an exception
    that matches none of them leaves the handler. *)
Fixpoint dispatch `{Dto} (exc : exn)
  (clauses : list (exc_class * (exn -> prog handler_exit))) : prog handler_exit :=
  match clauses with
  | [] => Done (Unhandled exc)
  | (cls, body) :: rest =>
      if isinstance exc cls then body exc else dispatch exc rest
  end.

(** [try: x = call except ...: ...] followed by the code that uses [x]. *)
Definition try_call `{Dto} (c : invocation)
  (clauses : list (exc_class * (exn -> prog handler_exit)))
  (orelse : result_type c -> prog handler_exit) : prog handler_exit :=
  Invoke c (fun r =>
    match r with
    | Returned x => orelse x
    | Raised exc => dispatch exc clauses
    end).

Definition raise `{Dto} (x : handler_exit) : prog handler_exit := Done x.
Definition return_ `{Dto} (body : json) : prog handler_exit := Done (Return body).

(** A plain call, outside any [try]: an exception leaves the handler. *)
Definition call `{Dto} (c : invocation)
  (k : result_type c -> prog handler_exit) : prog handler_exit :=
  try_call c [] k.

(** ** Request bodies *)

Record CreateSamplePayload : Type := mkCreateSamplePayload {
  prepared_on : date;
  author_name : option string;
  template_sample_id : option Z;
  copy_parameters : bool
}.

(** The model built from a request body: [prepared_on] is required, a field
    missing from the body ([None] here) takes its declared default. *)
Definition CreateSamplePayload_validate (prepared_on : date)
  (author_name : option (option string)) (template_sample_id : option (option Z))
  (copy_parameters : option bool) : CreateSamplePayload :=
  {| prepared_on := prepared_on;
     author_name := match author_name with Some v => v | None => None end;
     template_sample_id :=
       match template_sample_id with Some v => v | None => None end;
     copy_parameters :=
       match copy_parameters with Some v => v | None => false end |}.

Record RecordParametersPayload `{Dto} : Type := mkRecordParametersPayload {
  parameters : list SampleParameterValuePayload
}.
Arguments mkRecordParametersPayload {_} parameters.

(** ** The handlers of [create_app] *)

Definition health `{Dto} : prog handler_exit :=
  return_ (JDict [("status", JStr "ok")]).

Definition list_samples `{Dto} (include_deleted : bool) : prog handler_exit :=
  call (ListSamples include_deleted) (fun summaries =>
  return_ (JList (map model_dump summaries))).

(** The [for] loop of [get_sample] and the [raise] after it. *)
Fixpoint get_sample_loop `{Dto} (sample_id' : Z) (summaries : list SampleSummary)
  : prog handler_exit :=
  match summaries with
  | [] => raise (HTTPException HTTP_404_NOT_FOUND "Sample not found")
  | summary :: rest =>
      if sample_id summary =? sample_id' then return_ (model_dump summary)
      else get_sample_loop sample_id' rest
  end.

Definition get_sample `{Dto} (sample_id' : Z) : prog handler_exit :=
  call (ListSamples true) (fun summaries =>
  get_sample_loop sample_id' summaries).

Definition create_sample `{Dto} (payload : CreateSamplePayload) : prog handler_exit :=
  try_call (CreateSample (prepared_on payload) (author_name payload))
    [(DomainError, fun exc =>
        raise (HTTPException HTTP_400_BAD_REQUEST (str exc)))]
    (fun created =>
  let warnings0 : list string := [] in
  let copied := 0 in
  let finish (created : SampleItem) (copied : Z) (warnings0 : list string) :=
    return_ (JDict [("sample", model_dump created);
                    ("copied_parameters", JInt copied);
                    ("warnings", JList (map JStr warnings0))]) in
  match copy_parameters payload, template_sample_id payload with
  | true, Some template =>
      try_call (CopyParametersFromSample template (sample_id created))
        [(DomainError, fun exc => finish created copied (warnings0 ++ [str exc])%list)]
        (fun result =>
           finish (sample result) (applied result) (warnings0 ++ warnings result)%list)
  | _, _ => finish created copied warnings0
  end).

Definition record_parameters `{Dto} (sample_id' : Z)
  (payload : RecordParametersPayload) : prog handler_exit :=
  let assignments := parameters payload in
  try_call (RecordParameters sample_id' assignments)
    [(UnknownSampleError, fun exc =>
        raise (HTTPException HTTP_404_NOT_FOUND (str exc)));
     (DomainError, fun exc =>
        raise (HTTPException HTTP_400_BAD_REQUEST (str exc)))]
    (fun updated =>
  return_ (JDict [("sample", model_dump updated)])).

Definition list_sample_parameters `{Dto} (sample_id' : Z) : prog handler_exit :=
  try_call (GetSampleParameterValues sample_id')
    [(UnknownSampleError, fun exc =>
        raise (HTTPException HTTP_404_NOT_FOUND (str exc)))]
    (fun values =>
  return_ (JList (map model_dump values))).

Definition list_parameter_definitions `{Dto} : prog handler_exit :=
  call ListParameterDefinitions (fun definitions =>
  return_ (JList (map model_dump definitions))).

Definition get_parameter_history `{Dto} (parameter_name : string) (limit : Z)
  : prog handler_exit :=
  call (ListParameterValueHistory parameter_name limit) (fun values =>
  return_ (JList (map model_dump values))).

(** ** The routes: a handler behind its decorator *)

(** The declared query parameters. *)
Definition include_deleted_query : Query bool := mkQuery false None None.
Definition limit_query : Query Z := mkQuery 25 (Some 1) (Some 200).

(** A route whose arguments passed validation. *)
Definition route `{Dto} (status_code : Z) (handler : prog handler_exit)
  : prog Response :=
  fmap (respond status_code) handler.

Definition GET_health `{Dto} : prog Response :=
  route HTTP_200_OK health.

Definition GET_samples `{Dto} (include_deleted : query_arg bool) : prog Response :=
  match validate_bool include_deleted_query include_deleted with
  | Some include_deleted => route HTTP_200_OK (list_samples include_deleted)
  | None => Done RequestValidationError
  end.

Definition GET_sample `{Dto} (sample_id' : Z) : prog Response :=
  route HTTP_200_OK (get_sample sample_id').

Definition POST_samples `{Dto} (payload : CreateSamplePayload) : prog Response :=
  route HTTP_201_CREATED (create_sample payload).

Definition POST_sample_parameters `{Dto} (sample_id' : Z)
  (payload : RecordParametersPayload) : prog Response :=
  route HTTP_200_OK (record_parameters sample_id' payload).

Definition GET_sample_parameters `{Dto} (sample_id' : Z) : prog Response :=
  route HTTP_200_OK (list_sample_parameters sample_id').

Definition GET_parameter_definitions `{Dto} : prog Response :=
  route HTTP_200_OK list_parameter_definitions.

Definition GET_parameter_history `{Dto} (parameter_name : string)
  (limit : query_arg Z) : prog Response :=
  match validate_int limit_query limit with
  | Some limit => route HTTP_200_OK (get_parameter_history parameter_name limit)
  | None => Done RequestValidationError
  end.

(** ** An in-memory core *)

Module InMemory.

(** Modelled from the spec: the sample parameter domain service of
    [labframe_core] (its repository, catalog and exceptions), which is not part
    of this package.  Samples carry a soft-delete flag, a sample has at most
    one current value per parameter, every write is appended to a history that
    is read most recent first, and only numeric values are valid. *)
Record Sample : Type := mkSample {
  id : Z;
  prepared : date;
  author : option string;
  deleted : bool
}.

Record Value : Type := mkValue { of_sample : Z; name : string; value : Z }.

Inductive raw : Type := RawInt (z : Z) | RawText (s : string).

Record Payload : Type := mkPayload { p_name : string; p_raw : raw }.

Record Item : Type := mkItem { item_sample : Sample; item_values : list Value }.

Record store : Type := mkStore {
  samples : list Sample;
  current : list Value;
  history : list Value;
  catalog : list string
}.

Definition dump_date (d : date) : json :=
  JList [JInt (year d); JInt (month d); JInt (day d)].

Definition dump_sample (x : Sample) : json :=
  JDict [("sample_id", JInt (id x));
         ("prepared_on", dump_date (prepared x));
         ("author_name", match author x with Some a => JStr a | None => JNull end);
         ("deleted", JBool (deleted x))].

Definition dump_value (v : Value) : json :=
  JDict [("sample_id", JInt (of_sample v));
         ("parameter_name", JStr (name v));
         ("value", JInt (value v))].

Definition dump_item (x : Item) : json :=
  JDict [("sample", dump_sample (item_sample x));
         ("parameters", JList (map dump_value (item_values x)))].

#[export] Instance dto : Dto := {|
  SampleSummary := Sample;
  SampleItem := Item;
  SampleParameterValueItem := Value;
  ParameterDefinitionItem := string;
  SampleParameterValuePayload := Payload;
  SampleSummary_model := dump_sample;
  SampleSummary_id := id;
  SampleItem_model := dump_item;
  SampleItem_id := fun x => id (item_sample x);
  SampleParameterValueItem_model := dump_value;
  ParameterDefinitionItem_model := fun n => JDict [("name", JStr n)]
|}.

(** [UnknownSampleError] is a [DomainError]. *)
Definition unknown_sample : exn :=
  mkexn [UnknownSampleError; DomainError] "unknown sample".
Definition domain_error (message : string) : exn :=
  mkexn [DomainError] message.

Definition find_sample (i : Z) (st : store) : option Sample :=
  find (fun x => id x =? i) (samples st).

Definition known (n : string) (st : store) : bool :=
  existsb (String.eqb n) (catalog st).

Definition values_of (i : Z) (st : store) : list Value :=
  filter (fun v => of_sample v =? i) (current st).

Definition snapshot (x : Sample) (st : store) : Item :=
  mkItem x (values_of (id x) st).

Definition valid_date (d : date) : bool :=
  (1 <=? month d) && (month d <=? 12) && (1 <=? day d) && (day d <=? 31).

Definition fresh_id (st : store) : Z :=
  1 + fold_right Z.max 0 (map id (samples st)).

(** The current values stay ordered by parameter name. *)
Fixpoint upsert (v : Value) (vs : list Value) : list Value :=
  match vs with
  | [] => [v]
  | w :: rest =>
      if negb (of_sample w =? of_sample v) then w :: upsert v rest
      else if String.eqb (name w) (name v) then v :: rest
      else if String.ltb (name v) (name w) then v :: w :: rest
      else w :: upsert v rest
  end.

Definition write (v : Value) (st : store) : store :=
  mkStore (samples st) (upsert v (current st)) (v :: history st) (catalog st).

(** Validation of one recorded parameter against the catalog. *)
Definition validate (i : Z) (p : Payload) (st : store) : Value + string :=
  if known (p_name p) st then
    match p_raw p with
    | RawInt z => inl (mkValue i (p_name p) z)
    | RawText _ => inr (p_name p ++ ": invalid value")
    end
  else inr (p_name p ++ ": unknown parameter").

(** All of the parameters, or the first failure. *)
Fixpoint validate_all (i : Z) (ps : list Payload) (st : store)
  : list Value + string :=
  match ps with
  | [] => inl []
  | p :: rest =>
      match validate i p st with
      | inr message => inr message
      | inl v =>
          match validate_all i rest st with
          | inr message => inr message
          | inl vs => inl (v :: vs)
          end
      end
  end.

(** The copy goes on after a value that is no longer valid, with a warning. *)
Fixpoint copy_values (target : Z) (vs : list Value) (st : store)
  : store * Z * list string :=
  match vs with
  | [] => (st, 0, [])
  | v :: rest =>
      if known (name v) st then
        let '(st1, n, ws) :=
          copy_values target rest (write (mkValue target (name v) (value v)) st) in
        (st1, 1 + n, ws)
      else
        let '(st1, n, ws) := copy_values target rest st in
        (st1, n, (name v ++ ": unknown parameter") :: ws)
  end.

(** Within one call the last entry for a parameter wins. *)
Fixpoint last_wins (vs : list Value) : list Value :=
  match vs with
  | [] => []
  | v :: rest =>
      if existsb (fun w => String.eqb (name w) (name v)) rest then last_wins rest
      else v :: last_wins rest
  end.

(** Modelled from the spec: the operations of the domain service, which
    [labframe_core] implements outside this package. *)
Definition core : service store := fun c =>
  match c return store -> outcome (result_type c) * store with
  | ListSamples include_deleted => fun st =>
      (Returned (filter (fun x => include_deleted || negb (deleted x)) (samples st)),
       st)
  | CreateSample prepared_on author_name => fun st =>
      if valid_date prepared_on then
        let x := mkSample (fresh_id st) prepared_on author_name false in
        let st1 :=
          mkStore (samples st ++ [x]) (current st) (history st) (catalog st) in
        (Returned (snapshot x st1), st1)
      else (Raised (domain_error "prepared_on is not a calendar date"), st)
  | CopyParametersFromSample source target => fun st =>
      match find_sample source st, find_sample target st with
      | Some src, Some tgt =>
          if deleted src || (source =? target) then
            (Raised (domain_error "invalid copy source"), st)
          else
            let '(st1, n, ws) := copy_values target (values_of source st) st in
            (Returned (mkCopyResult (snapshot tgt st1) n ws), st1)
      | _, _ => (Raised (domain_error "invalid copy source"), st)
      end
  | RecordParameters i ps => fun st =>
      match find_sample i st with
      | Some x =>
          if deleted x then (Raised unknown_sample, st)
          else
            match validate_all i ps st with
            | inr message => (Raised (domain_error message), st)
            | inl vs =>
                let st1 :=
                  fold_left (fun acc v => write v acc) (last_wins vs) st in
                (Returned (snapshot x st1), st1)
            end
      | None => (Raised unknown_sample, st)
      end
  | GetSampleParameterValues i => fun st =>
      match find_sample i st with
      | Some _ => (Returned (values_of i st), st)
      | None => (Raised unknown_sample, st)
      end
  | ListParameterDefinitions => fun st => (Returned (catalog st), st)
  | ListParameterValueHistory n limit => fun st =>
      if negb (known n st) then
        (Raised (domain_error (n ++ ": unknown parameter")), st)
      else if limit <? 1 then
        (Raised (domain_error "limit must be positive"), st)
      else
        (Returned
           (firstn (Z.to_nat (Z.min limit 200))
              (filter (fun v => String.eqb (name v) n) (history st))),
         st)
  end.

(** A store with a soft-deleted sample and one stale parameter. *)
Definition lab : store :=
  mkStore
    [mkSample 1 (mkdate 2024 1 15) (Some "Ada") false;
     mkSample 2 (mkdate 2024 2 1) None true;
     mkSample 3 (mkdate 2024 3 9) (Some "Grace") false]
    [mkValue 1 "obsolete" 7; mkValue 1 "tempC" 25; mkValue 2 "ph" 6]
    [mkValue 1 "tempC" 25; mkValue 1 "obsolete" 7; mkValue 2 "ph" 6;
     mkValue 1 "tempC" 24]
    ["ph"; "tempC"].

(** Requests to create a sample: with a template that is soft-deleted, with a
    template that has a stale parameter, without a copy. *)
Definition from_deleted_template : CreateSamplePayload :=
  mkCreateSamplePayload (mkdate 2024 5 5) None (Some 2) true.
Definition from_template : CreateSamplePayload :=
  mkCreateSamplePayload (mkdate 2024 5 5) (Some "Ada") (Some 1) true.
Definition without_copy : CreateSamplePayload :=
  mkCreateSamplePayload (mkdate 2024 5 5) None (Some 1) false.

End InMemory.

(** ** Path parameters and request bodies *)

(** A path parameter or a request body as FastAPI hands it on: refused by
    the validation against the declared type, or a value of that type. *)
Inductive validation (A : Type) : Type :=
| Refused
| Accepted (a : A).
Arguments Refused {A}.
Arguments Accepted {A} a.

(** A refused value ends the request before the handler runs. *)
Definition validated `{Dto} {A : Type} (v : validation A)
  (route : A -> prog Response) : prog Response :=
  match v with
  | Accepted a => route a
  | Refused => Done RequestValidationError
  end.

(** The routes that take a path parameter or a body, from the raw request. *)
Definition request_GET_sample `{Dto} (sample_id' : validation Z) : prog Response :=
  validated sample_id' GET_sample.

Definition request_POST_samples `{Dto} (payload : validation CreateSamplePayload)
  : prog Response :=
  validated payload POST_samples.

Definition request_POST_sample_parameters `{Dto} (sample_id' : validation Z)
  (payload : validation RecordParametersPayload) : prog Response :=
  validated sample_id' (fun sample_id' =>
  validated payload (POST_sample_parameters sample_id')).

Definition request_GET_sample_parameters `{Dto} (sample_id' : validation Z)
  : prog Response :=
  validated sample_id' GET_sample_parameters.

(** ** Services that fail *)

Module Outage.

(** An exception that is no [DomainError]. *)
Definition storage_error : exn :=
  mkexn [OtherError "StorageError"] "database is locked".

(** A [DomainError] that is no [UnknownSampleError]. *)
Definition rejected : exn := mkexn [DomainError] "rejected".

(** Every method raises the same exception. *)
Definition failing `{Dto} (exc : exn) : service unit :=
  fun c s => (Raised exc, s).

(** The in-memory core, except that copying hits the storage failure. *)
Definition copy_outage : service InMemory.store := fun c =>
  match c return InMemory.store -> outcome (result_type c) * InMemory.store with
  | CopyParametersFromSample _ _ => fun st => (Raised storage_error, st)
  | c' => InMemory.core c'
  end.

End Outage.

(** ** The body of POST /samples/{sample_id}/parameters *)

(** [parameters] missing from the body ([None] here) is the empty tuple. *)
Definition RecordParametersPayload_validate `{Dto}
  (parameters : option (list SampleParameterValuePayload))
  : RecordParametersPayload :=
  mkRecordParametersPayload
    (match parameters with Some given => given | None => [] end).

(** ** Paths, [sys.path] and the database path *)

(** An absolute path after [resolve()]: its parts below the root. *)
Definition Path : Type := list string.

Definition IndexError : exn := mkexn [OtherError "IndexError"] "index out of range".

(** [p.parents[n]]: the [n]-th ancestor, counted from the directory that
    holds [p]; an absolute path has as many ancestors as parts. *)
Definition parents (p : Path) (n : nat) : outcome Path :=
  if (n <? List.length p)%nat then Returned (firstn (List.length p - S n) p)
  else Raised IndexError.

(** [p / part]. *)
Definition joinpath (p : Path) (part : string) : Path := (p ++ [part])%list.

(** [str(p)] on a POSIX system. *)
Definition path_str (p : Path) : string := "/" ++ String.concat "/" p.

(** The top of [app.py]: [CORE_SRC], computed from the resolved [__file__]. *)
Definition CORE_SRC (module_file : Path) : outcome Path :=
  match parents module_file 3 with
  | Returned above => Returned (joinpath (joinpath above "core") "src")
  | Raised exc => Raised exc
  end.

(** [if str(CORE_SRC) not in sys.path: sys.path.insert(0, str(CORE_SRC))]:
    the new value of [sys.path]. *)
Definition extend_sys_path (module_file : Path) (sys_path : list string)
  : outcome (list string) :=
  match CORE_SRC module_file with
  | Returned core_src =>
      if existsb (String.eqb (path_str core_src)) sys_path
      then Returned sys_path
      else Returned (path_str core_src :: sys_path)
  | Raised exc => Raised exc
  end.

(** What [config.py] reads from its surroundings: the environment, the file
    system and home directories behind [Path(v).expanduser().resolve()],
    which raises when a home directory cannot be found, and its own resolved
    [__file__]. *)
Record Host : Type := mkHost {
  getenv : string -> option string;
  expanduser_resolve : string -> outcome Path;
  module_file : Path
}.

(** The body of [resolve_db_path], under its [lru_cache]. *)
Definition resolve_db_path_body (h : Host) : outcome Path :=
  let env_value := getenv h "LABFRAME_DB_PATH" in
  let fallback :=
    match parents (module_file h) 2 with
    | Returned project_root =>
        Returned (joinpath (joinpath project_root "db") "database.sqlite")
    | Raised exc => Raised exc
    end in
  match env_value with
  | Some v => if String.eqb v "" then fallback else expanduser_resolve h v
  | None => fallback
  end.

(** The process: the host, the two caches, and whatever [bootstrap] works
    on. *)
Record process (Services B : Type) : Type := mkProcess {
  host : Host;
  db_path_cache : option Path;
  services_cache : option Services;
  outside : B
}.
Arguments mkProcess {Services B} host db_path_cache services_cache outside.
Arguments host {Services B} p.
Arguments db_path_cache {Services B} p.
Arguments services_cache {Services B} p.
Arguments outside {Services B} p.

Definition set_host {Services B : Type} (h : Host) (w : process Services B)
  : process Services B :=
  mkProcess h (db_path_cache w) (services_cache w) (outside w).

Definition set_db_path_cache {Services B : Type} (c : option Path)
  (w : process Services B) : process Services B :=
  mkProcess (host w) c (services_cache w) (outside w).

Definition set_services_cache {Services B : Type} (c : option Services)
  (w : process Services B) : process Services B :=
  mkProcess (host w) (db_path_cache w) c (outside w).

Definition set_outside {Services B : Type} (b : B) (w : process Services B)
  : process Services B :=
  mkProcess (host w) (db_path_cache w) (services_cache w) b.

(** [functools.lru_cache(maxsize=1)] around a function without arguments:
    a stored result is returned without running the body, a result is stored
    when the body returns, and nothing is stored when it raises. *)
Definition lru_cache {W A : Type} (cache : W -> option A)
  (store : option A -> W -> W) (body : W -> outcome A * W) (w : W)
  : outcome A * W :=
  match cache w with
  | Some v => (Returned v, w)
  | None =>
      let (r, w1) := body w in
      match r with
      | Returned v => (Returned v, store (Some v) w1)
      | Raised exc => (Raised exc, w1)
      end
  end.

Definition resolve_db_path {Services B : Type} (w : process Services B)
  : outcome Path * process Services B :=
  lru_cache db_path_cache set_db_path_cache
    (fun w => (resolve_db_path_body (host w), w)) w.

(** [_services] of [create_app]: [bootstrap(resolve_db_path())] under its
    own cache.  [bootstrap] belongs to the core. *)
Definition _services {Services B : Type}
  (bootstrap : Path -> B -> outcome Services * B) (w : process Services B)
  : outcome Services * process Services B :=
  lru_cache services_cache set_services_cache
    (fun w =>
       let (r, w1) := resolve_db_path w in
       match r with
       | Returned db_path =>
           let (r2, b) := bootstrap db_path (outside w1) in
           (r2, set_outside b w1)
       | Raised exc => (Raised exc, w1)
       end) w.

Definition get_services {Services B : Type}
  (bootstrap : Path -> B -> outcome Services * B) (w : process Services B)
  : outcome Services * process Services B :=
  _services bootstrap w.

(** ** A deployment *)

Module Deployment.

(** The project checked out as [/srv/labframe/ui], beside the core. *)
Definition config_file : Path :=
  ["srv"; "labframe"; "ui"; "api"; "labframe_api"; "config.py"].
Definition app_file : Path :=
  ["srv"; "labframe"; "ui"; "api"; "labframe_api"; "app.py"].

Definition RuntimeError : exn :=
  mkexn [OtherError "RuntimeError"] "Could not determine home directory.".

(** The home directory is [/home/ada] and there is no user [nobody]; other
    values are taken below [/]. *)
Definition resolver (v : string) : outcome Path :=
  if String.eqb v "~/lab.sqlite" then Returned ["home"; "ada"; "lab.sqlite"]
  else if String.eqb v "~nobody/lab.sqlite" then Raised RuntimeError
  else Returned [v].

Definition plain : Host := mkHost (fun _ => None) resolver config_file.

Definition configured (v : string) : Host :=
  mkHost (fun k => if String.eqb k "LABFRAME_DB_PATH" then Some v else None)
    resolver config_file.

(** A host where [config.py] lies directly under [/opt]. *)
Definition shallow : Host := mkHost (fun _ => None) resolver ["opt"; "config.py"].

(** The services are known by the path they were opened on; the outside
    counts the attempts, and the first attempt finds the database locked. *)
Definition bootstrap (db_path : Path) (attempts : nat) : outcome Path * nat :=
  match attempts with
  | O => (Raised Outage.storage_error, 1%nat)
  | Datatypes.S n => (Returned db_path, Datatypes.S (Datatypes.S n))
  end.

Definition start (h : Host) (attempts : nat) : process Path nat :=
  mkProcess h None None attempts.

End Deployment.

(** * Properties of the routes *)

Section Routes.

Context `{Dto} {S : Type} (svc : service S).

(** The three components of a run. *)
Definition response_of {A : Type} (x : A * S * list invocation) : A := fst (fst x).
Definition state_of {A : Type} (x : A * S * list invocation) : S := snd (fst x).
Definition calls_of {A : Type} (x : A * S * list invocation) : list invocation :=
  snd x.

Lemma run_Invoke {A : Type} (c : invocation) (k : outcome (result_type c) -> prog A)
  (s s1 : S) (r : outcome (result_type c)) :
  svc c s = (r, s1) ->
  run svc (Invoke c k) s =
    (response_of (run svc (k r) s1), state_of (run svc (k r) s1),
     c :: calls_of (run svc (k r) s1)).
Proof.
  intros E. cbn [run]. rewrite E.
  destruct (run svc (k r) s1) as [[a s2] calls]. reflexivity.
Qed.

Lemma run_fmap {A B : Type} (f : A -> B) (p : prog A) (s : S) :
  run svc (fmap f p) s =
    (f (response_of (run svc p s)), state_of (run svc p s), calls_of (run svc p s)).
Proof.
  unfold fmap. revert s.
  induction p as [a | c k IH]; intros s.
  - reflexivity.
  - cbn [bind run]. destruct (svc c s) as [r s1].
    rewrite IH. destruct (run svc (k r) s1) as [[a s2] calls]. reflexivity.
Qed.

Lemma run_try_call (c : invocation)
  (clauses : list (exc_class * (exn -> prog handler_exit)))
  (orelse : result_type c -> prog handler_exit) (s s1 : S)
  (r : outcome (result_type c)) :
  svc c s = (r, s1) ->
  run svc (try_call c clauses orelse) s =
    let rest :=
      run svc (match r with
               | Returned x => orelse x
               | Raised exc => dispatch exc clauses
               end) s1 in
    (response_of rest, state_of rest, c :: calls_of rest).
Proof.
  intros E. unfold try_call. rewrite (run_Invoke _ _ _ _ _ E). reflexivity.
Qed.

(** ** POST /samples *)

(** C1: in the create-sample flow, when a copy is requested and
    [copy_parameters_from_sample] raises a [DomainError], the request succeeds
    with status 201: the body holds the created sample, [copied_parameters] 0
    and a warnings list made of the error's message. *)
Theorem create_sample_copy_failure_is_a_warning
  (payload : CreateSamplePayload) (template : Z) (created : SampleItem)
  (exc : exn) (s s1 s2 : S) :
  copy_parameters payload = true ->
  template_sample_id payload = Some template ->
  svc (CreateSample (prepared_on payload) (author_name payload)) s
    = (Returned created, s1) ->
  svc (CopyParametersFromSample template (sample_id created)) s1
    = (Raised exc, s2) ->
  isinstance exc DomainError = true ->
  run svc (POST_samples payload) s =
    (JSONResponse 201
       (JDict [("sample", model_dump created);
               ("copied_parameters", JInt 0);
               ("warnings", JList [JStr (str exc)])]),
     s2,
     [CreateSample (prepared_on payload) (author_name payload);
      CopyParametersFromSample template (sample_id created)]).
Proof.
  intros Hcopy Htemplate Hcreate Hfail Hdomain.
  unfold POST_samples, route, create_sample.
  rewrite run_fmap, (run_try_call _ _ _ _ _ _ Hcreate).
  cbn zeta. rewrite Hcopy, Htemplate.
  rewrite (run_try_call _ _ _ _ _ _ Hfail).
  cbn [dispatch]. rewrite Hdomain. reflexivity.
Qed.

(** C6: when the requested copy succeeds, [copied_parameters] is the copy
    result's [applied], [warnings] are the copy result's warnings in order,
    and the returned sample is the copy result's refreshed target sample. *)
Theorem create_sample_copy_success
  (payload : CreateSamplePayload) (template : Z) (created : SampleItem)
  (result : CopyResult) (s s1 s2 : S) :
  copy_parameters payload = true ->
  template_sample_id payload = Some template ->
  svc (CreateSample (prepared_on payload) (author_name payload)) s
    = (Returned created, s1) ->
  svc (CopyParametersFromSample template (sample_id created)) s1
    = (Returned result, s2) ->
  run svc (POST_samples payload) s =
    (JSONResponse 201
       (JDict [("sample", model_dump (sample result));
               ("copied_parameters", JInt (applied result));
               ("warnings", JList (map JStr (warnings result)))]),
     s2,
     [CreateSample (prepared_on payload) (author_name payload);
      CopyParametersFromSample template (sample_id created)]).
Proof.
  intros Hcopy Htemplate Hcreate Hdone.
  unfold POST_samples, route, create_sample.
  rewrite run_fmap, (run_try_call _ _ _ _ _ _ Hcreate).
  cbn zeta. rewrite Hcopy, Htemplate.
  rewrite (run_try_call _ _ _ _ _ _ Hdone).
  reflexivity.
Qed.

(** C4: if [create_sample] of the service raises a [DomainError], the route
    answers 400 with the error message.  If it returns, the route answers 201
    with the sample and the copy outcome: the created sample, 0 and no
    warning when no copy is attempted; the created sample, 0 and the message
    when the copy raises a [DomainError]; the sample, the [applied] count and
    the warnings of the copy result when the copy returns.  The one exception:
    a requested copy that raises something that is not a [DomainError] leaves
    the handler, and the answer is a server error. *)
Theorem create_sample_status
  (payload : CreateSamplePayload) (r : outcome SampleItem) (s s1 : S) :
  svc (CreateSample (prepared_on payload) (author_name payload)) s = (r, s1) ->
  (forall exc, r = Raised exc -> isinstance exc DomainError = true ->
     run svc (POST_samples payload) s =
       (JSONResponse 400 (JDict [("detail", JStr (str exc))]), s1,
        [CreateSample (prepared_on payload) (author_name payload)])) /\
  (forall created, r = Returned created ->
     (copy_parameters payload = false \/ template_sample_id payload = None ->
      run svc (POST_samples payload) s =
        (JSONResponse 201
           (JDict [("sample", model_dump created);
                   ("copied_parameters", JInt 0);
                   ("warnings", JList [])]),
         s1,
         [CreateSample (prepared_on payload) (author_name payload)])) /\
     (forall (template : Z) (r2 : outcome CopyResult) (s2 : S),
        copy_parameters payload = true ->
        template_sample_id payload = Some template ->
        svc (CopyParametersFromSample template (sample_id created)) s1
          = (r2, s2) ->
        (forall result, r2 = Returned result ->
           run svc (POST_samples payload) s =
             (JSONResponse 201
                (JDict [("sample", model_dump (sample result));
                        ("copied_parameters", JInt (applied result));
                        ("warnings", JList (map JStr (warnings result)))]),
              s2,
              [CreateSample (prepared_on payload) (author_name payload);
               CopyParametersFromSample template (sample_id created)])) /\
        (forall exc, r2 = Raised exc -> isinstance exc DomainError = true ->
           run svc (POST_samples payload) s =
             (JSONResponse 201
                (JDict [("sample", model_dump created);
                        ("copied_parameters", JInt 0);
                        ("warnings", JList [JStr (str exc)])]),
              s2,
              [CreateSample (prepared_on payload) (author_name payload);
               CopyParametersFromSample template (sample_id created)])) /\
        (forall exc, r2 = Raised exc -> isinstance exc DomainError = false ->
           run svc (POST_samples payload) s =
             (ServerError exc, s2,
              [CreateSample (prepared_on payload) (author_name payload);
               CopyParametersFromSample template (sample_id created)])))).
Proof.
  intros Hcreate.
  unfold POST_samples, route, create_sample.
  rewrite run_fmap, (run_try_call _ _ _ _ _ _ Hcreate).
  split.
  - intros exc -> Hdomain. cbn [dispatch]. rewrite Hdomain. reflexivity.
  - intros created ->. cbn zeta. split.
    + intros [Hoff | Hoff]; rewrite Hoff.
      * reflexivity.
      * destruct (copy_parameters payload); reflexivity.
    + intros template r2 s2 Hcopy Htemplate Hcall.
      rewrite Hcopy, Htemplate, (run_try_call _ _ _ _ _ _ Hcall).
      repeat split.
      * intros result ->. reflexivity.
      * intros exc -> Hdomain. cbn [dispatch]. rewrite Hdomain. reflexivity.
      * intros exc -> Hdomain. cbn [dispatch]. rewrite Hdomain. reflexivity.
Qed.

(** C10: the copy is attempted only when [copy_parameters] is true and
    [template_sample_id] is not [None].  If either fails,
    [copy_parameters_from_sample] is never called, and the response to a
    created sample carries [copied_parameters] 0 and no warnings.  A request
    body that leaves one of the two fields out is such a payload. *)
Theorem create_sample_copy_gate (payload : CreateSamplePayload) (s : S) :
  (forall source target,
     In (CopyParametersFromSample source target)
        (calls_of (run svc (POST_samples payload) s)) ->
     copy_parameters payload = true /\
     template_sample_id payload = Some source) /\
  (copy_parameters payload = false \/ template_sample_id payload = None ->
     (forall source target,
        ~ In (CopyParametersFromSample source target)
             (calls_of (run svc (POST_samples payload) s))) /\
     (forall created s1,
        svc (CreateSample (prepared_on payload) (author_name payload)) s
          = (Returned created, s1) ->
        run svc (POST_samples payload) s =
          (JSONResponse 201
             (JDict [("sample", model_dump created);
                     ("copied_parameters", JInt 0);
                     ("warnings", JList [])]),
           s1,
           [CreateSample (prepared_on payload) (author_name payload)]))) /\
  (forall d a t c,
     t = None \/ c = None ->
     copy_parameters (CreateSamplePayload_validate d a t c) = false \/
     template_sample_id (CreateSamplePayload_validate d a t c) = None).
Proof.
  assert (Hgate : forall source target,
     In (CopyParametersFromSample source target)
        (calls_of (run svc (POST_samples payload) s)) ->
     copy_parameters payload = true /\
     template_sample_id payload = Some source).
  { intros source target.
    unfold POST_samples, route, create_sample.
    destruct (svc (CreateSample (prepared_on payload) (author_name payload)) s)
      as [r s1] eqn:Hcreate.
    rewrite run_fmap, (run_try_call _ _ _ _ _ _ Hcreate). cbn zeta.
    destruct r as [created | exc].
    - destruct (copy_parameters payload);
        [destruct (template_sample_id payload) as [template|]|];
        try (cbn; intros [E | []]; discriminate E).
      destruct (svc (CopyParametersFromSample template (sample_id created)) s1)
        as [r2 s2] eqn:Hcall.
      rewrite (run_try_call _ _ _ _ _ _ Hcall).
      destruct r2 as [result | exc];
        [|cbn [dispatch]; destruct (isinstance exc DomainError)];
        cbn; intros [E | [E | []]]; try discriminate E;
        injection E as -> _; split; reflexivity.
    - cbn [dispatch]. destruct (isinstance exc DomainError);
        cbn; intros [E | []]; discriminate E. }
  split; [exact Hgate|]. split.
  - intros Hoff. split.
    + intros source target Hin. destruct (Hgate _ _ Hin) as [Hc Ht].
      destruct Hoff as [Hoff | Hoff]; congruence.
    + intros created s1 Hcreate.
      unfold POST_samples, route, create_sample.
      rewrite run_fmap, (run_try_call _ _ _ _ _ _ Hcreate). cbn zeta.
      destruct Hoff as [-> | Hoff].
      * reflexivity.
      * rewrite Hoff. destruct (copy_parameters payload); reflexivity.
  - intros d a t c [-> | ->]; cbn; [right | left]; reflexivity.
Qed.

(** ** POST and GET /samples/{sample_id}/parameters *)

(** C3: recording parameters answers 404 when the service raises
    [UnknownSampleError], 400 when it raises any other [DomainError], and 200
    with the updated sample when it returns. *)
Theorem record_parameters_status
  (sample_id' : Z) (payload : RecordParametersPayload)
  (r : outcome SampleItem) (s s1 : S) :
  svc (RecordParameters sample_id' (parameters payload)) s = (r, s1) ->
  (forall exc, r = Raised exc -> isinstance exc UnknownSampleError = true ->
     run svc (POST_sample_parameters sample_id' payload) s =
       (JSONResponse 404 (JDict [("detail", JStr (str exc))]), s1,
        [RecordParameters sample_id' (parameters payload)])) /\
  (forall exc, r = Raised exc -> isinstance exc UnknownSampleError = false ->
     isinstance exc DomainError = true ->
     run svc (POST_sample_parameters sample_id' payload) s =
       (JSONResponse 400 (JDict [("detail", JStr (str exc))]), s1,
        [RecordParameters sample_id' (parameters payload)])) /\
  (forall updated, r = Returned updated ->
     run svc (POST_sample_parameters sample_id' payload) s =
       (JSONResponse 200 (JDict [("sample", model_dump updated)]), s1,
        [RecordParameters sample_id' (parameters payload)])).
Proof.
  intros Hcall.
  unfold POST_sample_parameters, route, record_parameters. cbn zeta.
  rewrite run_fmap, (run_try_call _ _ _ _ _ _ Hcall).
  repeat split.
  - intros exc -> Hunknown. cbn [dispatch]. rewrite Hunknown. reflexivity.
  - intros exc -> Hunknown Hdomain. cbn [dispatch].
    rewrite Hunknown, Hdomain. reflexivity.
  - intros updated ->. reflexivity.
Qed.

(** C7: reading a sample's parameter values answers 404 when the service
    raises [UnknownSampleError] and 200 with the array of the current values
    when it returns. *)
Theorem list_sample_parameters_status
  (sample_id' : Z) (r : outcome (list SampleParameterValueItem)) (s s1 : S) :
  svc (GetSampleParameterValues sample_id') s = (r, s1) ->
  (forall exc, r = Raised exc -> isinstance exc UnknownSampleError = true ->
     run svc (GET_sample_parameters sample_id') s =
       (JSONResponse 404 (JDict [("detail", JStr (str exc))]), s1,
        [GetSampleParameterValues sample_id'])) /\
  (forall values, r = Returned values ->
     run svc (GET_sample_parameters sample_id') s =
       (JSONResponse 200 (JList (map model_dump values)), s1,
        [GetSampleParameterValues sample_id'])).
Proof.
  intros Hcall.
  unfold GET_sample_parameters, route, list_sample_parameters.
  rewrite run_fmap, (run_try_call _ _ _ _ _ _ Hcall).
  split.
  - intros exc -> Hunknown. cbn [dispatch]. rewrite Hunknown. reflexivity.
  - intros values ->. reflexivity.
Qed.

(** ** GET /samples and GET /samples/{sample_id} *)

(** The loop returns the first summary with the requested id. *)
Lemma get_sample_loop_find (sample_id' : Z) (summaries : list SampleSummary) :
  get_sample_loop sample_id' summaries =
    match find (fun x => sample_id x =? sample_id') summaries with
    | Some summary => return_ (model_dump summary)
    | None => raise (HTTPException HTTP_404_NOT_FOUND "Sample not found")
    end.
Proof.
  induction summaries as [| summary rest IH]; cbn [get_sample_loop find].
  - reflexivity.
  - destruct (sample_id summary =? sample_id'); [reflexivity | exact IH].
Qed.

Lemma run_get_sample (sample_id' : Z) (summaries : list SampleSummary) (s s1 : S) :
  svc (ListSamples true) s = (Returned summaries, s1) ->
  run svc (GET_sample sample_id') s =
    (match find (fun x => sample_id x =? sample_id') summaries with
     | Some summary => JSONResponse 200 (model_dump summary)
     | None => JSONResponse 404 (JDict [("detail", JStr "Sample not found")])
     end, s1, [ListSamples true]).
Proof.
  intros Hlist. unfold GET_sample, route, get_sample, call.
  rewrite run_fmap, (run_try_call _ _ _ _ _ _ Hlist). cbn zeta.
  rewrite get_sample_loop_find.
  destruct (find _ summaries); reflexivity.
Qed.

Lemma run_list_samples (include_deleted : bool) (summaries : list SampleSummary)
  (s s1 : S) :
  svc (ListSamples include_deleted) s = (Returned summaries, s1) ->
  run svc (route HTTP_200_OK (list_samples include_deleted)) s =
    (JSONResponse 200 (JList (map model_dump summaries)), s1,
     [ListSamples include_deleted]).
Proof.
  intros Hlist. unfold route, list_samples, call.
  rewrite run_fmap, (run_try_call _ _ _ _ _ _ Hlist). reflexivity.
Qed.

(** C5: the sample is looked for among the listed samples.  If one of them
    has the requested id, the route answers 200 with the dump of a listed
    summary with that id (the first one); if none has, it answers 404. *)
Theorem get_sample_by_id
  (sample_id' : Z) (summaries : list SampleSummary) (s s1 : S) :
  svc (ListSamples true) s = (Returned summaries, s1) ->
  ((exists x, In x summaries /\ sample_id x = sample_id') ->
   exists summary,
     In summary summaries /\ sample_id summary = sample_id' /\
     find (fun x => sample_id x =? sample_id') summaries = Some summary /\
     run svc (GET_sample sample_id') s =
       (JSONResponse 200 (model_dump summary), s1, [ListSamples true])) /\
  ((forall x, In x summaries -> sample_id x <> sample_id') ->
   run svc (GET_sample sample_id') s =
     (JSONResponse 404 (JDict [("detail", JStr "Sample not found")]), s1,
      [ListSamples true])).
Proof.
  intros Hlist. rewrite (run_get_sample _ _ _ _ Hlist). split.
  - intros [x [Hin Hid]].
    destruct (find (fun x => sample_id x =? sample_id') summaries)
      as [summary|] eqn:Hfind.
    + destruct (find_some _ _ Hfind) as [Hin' Hid'].
      exists summary. apply Z.eqb_eq in Hid'. repeat split; assumption.
    + apply (find_none _ _ Hfind) in Hin. apply Z.eqb_neq in Hin.
      contradiction.
  - intros Hnone.
    destruct (find (fun x => sample_id x =? sample_id') summaries)
      as [summary|] eqn:Hfind; [|reflexivity].
    destruct (find_some _ _ Hfind) as [Hin Hid]. apply Z.eqb_eq in Hid.
    destruct (Hnone _ Hin Hid).
Qed.

(** A plain call followed by code that calls nothing makes exactly one call. *)
Lemma calls_of_single_call (status_code : Z) (c : invocation)
  (k : result_type c -> prog handler_exit) (s : S) :
  (forall x s1, calls_of (run svc (k x) s1) = []) ->
  calls_of (run svc (route status_code (call c k)) s) = [c].
Proof.
  intros Hk. unfold route, call.
  destruct (svc c s) as [r s1] eqn:Hcall.
  rewrite run_fmap, (run_try_call _ _ _ _ _ _ Hcall). cbn [calls_of snd].
  destruct r as [x | exc].
  - fold (calls_of (run svc (k x) s1)). rewrite Hk. reflexivity.
  - reflexivity.
Qed.

Lemma calls_of_get_sample_loop (sample_id' : Z) (summaries : list SampleSummary)
  (s : S) :
  calls_of (run svc (get_sample_loop sample_id' summaries) s) = [].
Proof.
  rewrite get_sample_loop_find.
  destruct (find _ summaries); reflexivity.
Qed.

(** C9: the by-id route lists with [include_deleted=True] whatever the
    request, the list route lists with [include_deleted=False] unless the
    caller says otherwise.  Hence, over a service whose listing leaves the
    soft-deleted samples out exactly when [include_deleted] is false, a
    soft-deleted sample is returned by id and is absent from the default
    listing, while the caller who opts in gets it. *)
Theorem soft_deleted_sample_visibility (sample_id' : Z) (s : S) :
  calls_of (run svc (GET_sample sample_id') s) = [ListSamples true] /\
  calls_of (run svc (GET_samples Omitted) s) = [ListSamples false] /\
  (forall include_deleted,
     calls_of (run svc (GET_samples (Supplied include_deleted)) s)
       = [ListSamples include_deleted]) /\
  (forall (deleted : SampleSummary -> bool) (everything : list SampleSummary)
          (x : SampleSummary) (s1 s2 : S),
     svc (ListSamples true) s = (Returned everything, s1) ->
     svc (ListSamples false) s
       = (Returned (filter (fun y => negb (deleted y)) everything), s2) ->
     In x everything ->
     deleted x = true ->
     sample_id x = sample_id' ->
     (forall y, In y everything -> sample_id y = sample_id' -> y = x) ->
     run svc (GET_sample sample_id') s =
       (JSONResponse 200 (model_dump x), s1, [ListSamples true]) /\
     run svc (GET_samples Omitted) s =
       (JSONResponse 200
          (JList (map model_dump (filter (fun y => negb (deleted y)) everything))),
        s2, [ListSamples false]) /\
     ~ In x (filter (fun y => negb (deleted y)) everything) /\
     run svc (GET_samples (Supplied true)) s =
       (JSONResponse 200 (JList (map model_dump everything)), s1,
        [ListSamples true])).
Proof.
  split; [|split; [|split]].
  - unfold GET_sample, get_sample. apply calls_of_single_call.
    intros x s1. apply calls_of_get_sample_loop.
  - unfold GET_samples, list_samples. cbn [validate_bool].
    apply calls_of_single_call. reflexivity.
  - intros include_deleted. unfold GET_samples, list_samples.
    cbn [validate_bool]. apply calls_of_single_call. reflexivity.
  - intros deleted everything x s1 s2 Hall Hlive Hin Hdel Hid Huniq.
    split; [|split; [|split]].
    + rewrite (run_get_sample _ _ _ _ Hall).
      destruct (find (fun y => sample_id y =? sample_id') everything)
        as [y|] eqn:Hfind.
      * destruct (find_some _ _ Hfind) as [Hy Hyid]. apply Z.eqb_eq in Hyid.
        rewrite (Huniq y Hy Hyid). reflexivity.
      * apply (find_none _ _ Hfind) in Hin. apply Z.eqb_neq in Hin.
        contradiction.
    + unfold GET_samples. cbn [validate_bool include_deleted_query default].
      apply (run_list_samples _ _ _ _ Hlive).
    + intros Hfiltered. apply filter_In in Hfiltered as [_ Hlive'].
      rewrite Hdel in Hlive'. discriminate Hlive'.
    + unfold GET_samples. cbn [validate_bool].
      apply (run_list_samples _ _ _ _ Hall).
Qed.

(** ** GET /parameters/{parameter_name}/history *)

Lemma validate_int_limit_bounds (arg : query_arg Z) (limit : Z) :
  validate_int limit_query arg = Some limit -> 1 <= limit <= 200.
Proof.
  destruct arg as [| | z]; cbn [validate_int limit_query default ge le].
  - intros E. injection E as <-. lia.
  - discriminate.
  - unfold lower_ok, upper_ok.
    destruct (1 <=? z) eqn:Hlow; destruct (z <=? 200) eqn:Hhigh;
      cbn [andb]; try discriminate.
    intros E. injection E as <-.
    apply Z.leb_le in Hlow. apply Z.leb_le in Hhigh. lia.
Qed.

Lemma validate_int_limit_in_range (z : Z) :
  1 <= z <= 200 -> validate_int limit_query (Supplied z) = Some z.
Proof.
  intros [Hlow Hhigh]. cbn [validate_int limit_query default ge le].
  unfold lower_ok, upper_ok.
  apply Z.leb_le in Hlow. apply Z.leb_le in Hhigh.
  rewrite Hlow, Hhigh. reflexivity.
Qed.

Lemma validate_int_limit_out_of_range (z : Z) :
  z < 1 \/ 200 < z -> validate_int limit_query (Supplied z) = None.
Proof.
  intros Hz.
  destruct (validate_int limit_query (Supplied z)) as [limit|] eqn:Hvalid;
    [|reflexivity].
  pose proof (validate_int_limit_bounds _ _ Hvalid) as Hbounds.
  cbn [validate_int] in Hvalid.
  destruct (lower_ok (ge limit_query) z && upper_ok (le limit_query) z);
    [|discriminate Hvalid].
  injection Hvalid as <-. lia.
Qed.

Lemma calls_of_parameter_history (parameter_name : string) (arg : query_arg Z)
  (s : S) :
  calls_of (run svc (GET_parameter_history parameter_name arg) s) =
    match validate_int limit_query arg with
    | Some limit => [ListParameterValueHistory parameter_name limit]
    | None => []
    end.
Proof.
  unfold GET_parameter_history.
  destruct (validate_int limit_query arg) as [limit|]; [|reflexivity].
  unfold get_parameter_history. apply calls_of_single_call. reflexivity.
Qed.

(** C8: the [limit] query parameter is bounded to 1..200 and defaults to 25:
    the limit that reaches the service lies in 1..200, it is 25 when the
    parameter is omitted and the requested value when that lies in range, and
    a value out of range is refused.  When the service returns, the route
    answers 200 with the array of the history entries. *)
Theorem parameter_history_limit_and_success
  (parameter_name : string) (arg : query_arg Z) (s : S) :
  (forall name limit,
     In (ListParameterValueHistory name limit)
        (calls_of (run svc (GET_parameter_history parameter_name arg) s)) ->
     name = parameter_name /\ 1 <= limit <= 200) /\
  calls_of (run svc (GET_parameter_history parameter_name Omitted) s)
    = [ListParameterValueHistory parameter_name 25] /\
  (forall z, 1 <= z <= 200 ->
     calls_of (run svc (GET_parameter_history parameter_name (Supplied z)) s)
       = [ListParameterValueHistory parameter_name z]) /\
  (forall z, z < 1 \/ 200 < z ->
     run svc (GET_parameter_history parameter_name (Supplied z)) s
       = (RequestValidationError, s, [])) /\
  (forall limit values s1,
     validate_int limit_query arg = Some limit ->
     svc (ListParameterValueHistory parameter_name limit) s
       = (Returned values, s1) ->
     run svc (GET_parameter_history parameter_name arg) s =
       (JSONResponse 200 (JList (map model_dump values)), s1,
        [ListParameterValueHistory parameter_name limit])).
Proof.
  split; [|split; [|split; [|split]]].
  - intros name limit. rewrite calls_of_parameter_history.
    destruct (validate_int limit_query arg) as [l|] eqn:Hvalid; [|intros []].
    intros [E | []]. injection E as <- <-.
    split; [reflexivity | exact (validate_int_limit_bounds _ _ Hvalid)].
  - rewrite calls_of_parameter_history. reflexivity.
  - intros z Hz. rewrite calls_of_parameter_history.
    rewrite (validate_int_limit_in_range _ Hz). reflexivity.
  - intros z Hz. unfold GET_parameter_history.
    rewrite (validate_int_limit_out_of_range _ Hz). reflexivity.
  - intros limit values s1 Hvalid Hcall.
    unfold GET_parameter_history. rewrite Hvalid.
    unfold route, get_parameter_history, call.
    rewrite run_fmap, (run_try_call _ _ _ _ _ _ Hcall). reflexivity.
Qed.

(** C2, as the route has it: the [limit] that reaches the service is a
    positive integer not above 200, and a requested limit above 200 is not
    clamped: the request is refused by the validation of the query parameters
    (status 422) and the service is not called. *)
Theorem parameter_history_limit_above_ceiling_rejected
  (parameter_name : string) (s : S) :
  (forall arg name limit,
     In (ListParameterValueHistory name limit)
        (calls_of (run svc (GET_parameter_history parameter_name arg) s)) ->
     0 < limit <= 200) /\
  (forall z, 200 < z ->
     run svc (GET_parameter_history parameter_name (Supplied z)) s
       = (RequestValidationError, s, []) /\
     status_of RequestValidationError = 422).
Proof.
  split.
  - intros arg name limit. rewrite calls_of_parameter_history.
    destruct (validate_int limit_query arg) as [l|] eqn:Hvalid; [|intros []].
    intros [E | []]. injection E as _ <-.
    pose proof (validate_int_limit_bounds _ _ Hvalid). lia.
  - intros z Hz. split; [|reflexivity].
    unfold GET_parameter_history.
    rewrite (validate_int_limit_out_of_range z (or_intror Hz)). reflexivity.
Qed.

End Routes.

(** * Further properties of the routes *)

Section Handlers.

Context `{Dto} {S : Type} (svc : service S).

(** How a route built on a plain call ends, whatever the call gives. *)
Lemma run_plain_route (status_code : Z) (c : invocation)
  (k : result_type c -> prog handler_exit) (r : outcome (result_type c))
  (s s1 : S) :
  svc c s = (r, s1) ->
  run svc (route status_code (call c k)) s =
    match r with
    | Returned x =>
        (respond status_code (response_of (run svc (k x) s1)),
         state_of (run svc (k x) s1), c :: calls_of (run svc (k x) s1))
    | Raised exc => (ServerError exc, s1, [c])
    end.
Proof.
  intros Hcall. unfold route, call.
  rewrite run_fmap, (run_try_call _ _ _ _ _ _ _ Hcall).
  destruct r as [x | exc]; reflexivity.
Qed.

(** ** GET /samples *)

(** X1: the list route: with a usable [include_deleted] a returned listing is
    answered with 200 and one dump per summary, in order; any exception of the
    service leaves the handler, as nothing is caught; an [include_deleted]
    that is no boolean is refused before the service is called. *)
Theorem list_samples_responses (arg : query_arg bool) (s : S) :
  (forall include_deleted r s1,
     validate_bool include_deleted_query arg = Some include_deleted ->
     svc (ListSamples include_deleted) s = (r, s1) ->
     run svc (GET_samples arg) s =
       (match r with
        | Returned summaries => JSONResponse 200 (JList (map model_dump summaries))
        | Raised exc => ServerError exc
        end, s1, [ListSamples include_deleted])) /\
  run svc (GET_samples Unparsable) s = (RequestValidationError, s, []).
Proof.
  split; [|reflexivity].
  intros include_deleted r s1 Hvalid Hcall.
  unfold GET_samples. rewrite Hvalid. unfold list_samples.
  rewrite (run_plain_route _ _ _ _ _ _ Hcall).
  destruct r; reflexivity.
Qed.

(** ** GET /samples/{sample_id} *)

(** X2: an exception raised while listing leaves [get_sample] as it is, also a
    [DomainError] or an [UnknownSampleError]: the route answers with a server
    error, never with 404. *)
Theorem get_sample_listing_error_escapes (sample_id' : Z) (exc : exn) (s s1 : S) :
  svc (ListSamples true) s = (Raised exc, s1) ->
  run svc (GET_sample sample_id') s = (ServerError exc, s1, [ListSamples true]).
Proof.
  intros Hcall. unfold GET_sample, get_sample.
  apply (run_plain_route _ _ _ _ _ _ Hcall).
Qed.

(** ** GET /parameters/definitions *)

(** X3: the definitions route calls [list_parameter_definitions] exactly once.
    What it returns is answered with 200 and one dump per definition, in
    order; what it raises leaves the handler. *)
Theorem list_parameter_definitions_responses
  (r : outcome (list ParameterDefinitionItem)) (s s1 : S) :
  svc ListParameterDefinitions s = (r, s1) ->
  run svc GET_parameter_definitions s =
    (match r with
     | Returned definitions => JSONResponse 200 (JList (map model_dump definitions))
     | Raised exc => ServerError exc
     end, s1, [ListParameterDefinitions]).
Proof.
  intros Hcall. unfold GET_parameter_definitions, list_parameter_definitions.
  rewrite (run_plain_route _ _ _ _ _ _ Hcall).
  destruct r; reflexivity.
Qed.

(** ** GET /parameters/{parameter_name}/history *)

(** X4: the history route catches nothing: when the service raises for a limit
    that passed validation, be it a [DomainError] for an unknown parameter,
    the exception leaves the handler and the answer is a server error.  A
    limit that is no integer is refused before the service is called. *)
Theorem parameter_history_error_escapes
  (parameter_name : string) (arg : query_arg Z) (s : S) :
  (forall limit exc s1,
     validate_int limit_query arg = Some limit ->
     svc (ListParameterValueHistory parameter_name limit) s = (Raised exc, s1) ->
     run svc (GET_parameter_history parameter_name arg) s =
       (ServerError exc, s1, [ListParameterValueHistory parameter_name limit])) /\
  run svc (GET_parameter_history parameter_name Unparsable) s
    = (RequestValidationError, s, []).
Proof.
  split; [|reflexivity].
  intros limit exc s1 Hvalid Hcall.
  unfold GET_parameter_history. rewrite Hvalid. unfold get_parameter_history.
  apply (run_plain_route _ _ _ _ _ _ Hcall).
Qed.

(** ** The parameters of a sample *)

(** X5: reading the values translates [UnknownSampleError] only: any other
    exception, a [DomainError] included, leaves the handler. *)
Theorem list_sample_parameters_other_error_escapes
  (sample_id' : Z) (exc : exn) (s s1 : S) :
  svc (GetSampleParameterValues sample_id') s = (Raised exc, s1) ->
  isinstance exc UnknownSampleError = false ->
  run svc (GET_sample_parameters sample_id') s =
    (ServerError exc, s1, [GetSampleParameterValues sample_id']).
Proof.
  intros Hcall Hother.
  unfold GET_sample_parameters, route, list_sample_parameters.
  rewrite run_fmap, (run_try_call _ _ _ _ _ _ _ Hcall).
  cbn [dispatch]. rewrite Hother. reflexivity.
Qed.

(** X6: recording translates [UnknownSampleError] and [DomainError]: an exception
    of neither class leaves the handler. *)
Theorem record_parameters_other_error_escapes
  (sample_id' : Z) (payload : RecordParametersPayload) (exc : exn) (s s1 : S) :
  svc (RecordParameters sample_id' (parameters payload)) s = (Raised exc, s1) ->
  isinstance exc UnknownSampleError = false ->
  isinstance exc DomainError = false ->
  run svc (POST_sample_parameters sample_id' payload) s =
    (ServerError exc, s1, [RecordParameters sample_id' (parameters payload)]).
Proof.
  intros Hcall Hunknown Hdomain.
  unfold POST_sample_parameters, route, record_parameters. cbn zeta.
  rewrite run_fmap, (run_try_call _ _ _ _ _ _ _ Hcall).
  cbn [dispatch]. rewrite Hunknown, Hdomain. reflexivity.
Qed.

(** X7: both parameter routes call the service exactly once, with the id and the
    parameters of the request as they are; a body without [parameters] is
    recorded as the empty sequence, and the service is still called. *)
Theorem parameter_routes_call_once
  (sample_id' : Z) (payload : RecordParametersPayload) (s : S) :
  calls_of (run svc (GET_sample_parameters sample_id') s)
    = [GetSampleParameterValues sample_id'] /\
  calls_of (run svc (POST_sample_parameters sample_id' payload) s)
    = [RecordParameters sample_id' (parameters payload)] /\
  calls_of (run svc (POST_sample_parameters sample_id'
                       (RecordParametersPayload_validate None)) s)
    = [RecordParameters sample_id' []].
Proof.
  assert (Hrecord : forall payload',
    calls_of (run svc (POST_sample_parameters sample_id' payload') s)
      = [RecordParameters sample_id' (parameters payload')]).
  { intros payload'.
    unfold POST_sample_parameters, route, record_parameters. cbn zeta.
    destruct (svc (RecordParameters sample_id' (parameters payload')) s)
      as [r s1] eqn:Hcall.
    rewrite run_fmap, (run_try_call _ _ _ _ _ _ _ Hcall).
    destruct r as [updated | exc]; [reflexivity|].
    cbn [dispatch].
    destruct (isinstance exc UnknownSampleError); [reflexivity|].
    destruct (isinstance exc DomainError); reflexivity. }
  split; [|split].
  - unfold GET_sample_parameters, route, list_sample_parameters.
    destruct (svc (GetSampleParameterValues sample_id') s) as [r s1] eqn:Hcall.
    rewrite run_fmap, (run_try_call _ _ _ _ _ _ _ Hcall).
    destruct r as [values | exc]; [reflexivity|].
    cbn [dispatch].
    destruct (isinstance exc UnknownSampleError); reflexivity.
  - apply Hrecord.
  - apply (Hrecord (RecordParametersPayload_validate None)).
Qed.

(** ** POST /samples *)

(** X8: only a [DomainError] is translated.  Another exception of [create_sample]
    leaves the handler before any copy is attempted; another exception of a
    requested copy leaves the handler although the sample has been created:
    the answer is a server error and the state is the one after both calls. *)
Theorem create_sample_other_error_escapes
  (payload : CreateSamplePayload) (s : S) :
  (forall exc s1,
     svc (CreateSample (prepared_on payload) (author_name payload)) s
       = (Raised exc, s1) ->
     isinstance exc DomainError = false ->
     run svc (POST_samples payload) s =
       (ServerError exc, s1,
        [CreateSample (prepared_on payload) (author_name payload)])) /\
  (forall template created exc s1 s2,
     copy_parameters payload = true ->
     template_sample_id payload = Some template ->
     svc (CreateSample (prepared_on payload) (author_name payload)) s
       = (Returned created, s1) ->
     svc (CopyParametersFromSample template (sample_id created)) s1
       = (Raised exc, s2) ->
     isinstance exc DomainError = false ->
     run svc (POST_samples payload) s =
       (ServerError exc, s2,
        [CreateSample (prepared_on payload) (author_name payload);
         CopyParametersFromSample template (sample_id created)])).
Proof.
  split.
  - intros exc s1 Hcreate Hother.
    unfold POST_samples, route, create_sample.
    rewrite run_fmap, (run_try_call _ _ _ _ _ _ _ Hcreate).
    cbn [dispatch]. rewrite Hother. reflexivity.
  - intros template created exc s1 s2 Hcopy Htemplate Hcreate Hfail Hother.
    unfold POST_samples, route, create_sample.
    rewrite run_fmap, (run_try_call _ _ _ _ _ _ _ Hcreate).
    cbn zeta. rewrite Hcopy, Htemplate.
    rewrite (run_try_call _ _ _ _ _ _ _ Hfail).
    cbn [dispatch]. rewrite Hother. reflexivity.
Qed.

(** X9: the calls of the create route: [create_sample] first, with the date and
    the author of the payload, and then at most one copy, made only after
    [create_sample] has returned, from the template of the payload to the id
    of the sample just created. *)
Theorem create_sample_call_sequence (payload : CreateSamplePayload) (s : S) :
  calls_of (run svc (POST_samples payload) s)
    = [CreateSample (prepared_on payload) (author_name payload)] \/
  exists template created s1,
    svc (CreateSample (prepared_on payload) (author_name payload)) s
      = (Returned created, s1) /\
    copy_parameters payload = true /\
    template_sample_id payload = Some template /\
    calls_of (run svc (POST_samples payload) s)
      = [CreateSample (prepared_on payload) (author_name payload);
         CopyParametersFromSample template (sample_id created)].
Proof.
  unfold POST_samples, route, create_sample.
  destruct (svc (CreateSample (prepared_on payload) (author_name payload)) s)
    as [r s1] eqn:Hcreate.
  rewrite run_fmap, (run_try_call _ _ _ _ _ _ _ Hcreate). cbn zeta.
  destruct r as [created | exc].
  - destruct (copy_parameters payload) eqn:Hcopy;
      [destruct (template_sample_id payload) as [template|] eqn:Htemplate|];
      try (left; reflexivity).
    right. exists template, created, s1.
    repeat split.
    destruct (svc (CopyParametersFromSample template (sample_id created)) s1)
      as [r2 s2] eqn:Hcall.
    rewrite (run_try_call _ _ _ _ _ _ _ Hcall).
    destruct r2 as [result | exc]; [reflexivity|].
    cbn [dispatch]. destruct (isinstance exc DomainError); reflexivity.
  - left. cbn [dispatch]. destruct (isinstance exc DomainError); reflexivity.
Qed.

(** X10: from the request body to the copy: when [create_sample] returns, a copy
    from [source] is attempted exactly when the body gives
    [copy_parameters] as true and [template_sample_id] as [source]; a field
    left out and a [template_sample_id] given as null both prevent it. *)
Theorem copy_attempted_iff_requested
  (d : date) (a : option (option string)) (t : option (option Z))
  (c : option bool) (source : Z) (created : SampleItem) (s s1 : S) :
  svc (CreateSample d (match a with Some v => v | None => None end)) s
    = (Returned created, s1) ->
  In (CopyParametersFromSample source (sample_id created))
     (calls_of (run svc (POST_samples (CreateSamplePayload_validate d a t c)) s))
  <-> (c = Some true /\ t = Some (Some source)).
Proof.
  intros Hcreate.
  unfold POST_samples, route, create_sample.
  cbn [prepared_on author_name copy_parameters template_sample_id
       CreateSamplePayload_validate].
  rewrite run_fmap, (run_try_call _ _ _ _ _ _ _ Hcreate). cbn zeta.
  destruct c as [[|]|]; [destruct t as [[template|]|]| |];
    try (cbn; split; [intros [E | []]; discriminate E
                     | intros [E1 E2]; discriminate]).
  destruct (svc (CopyParametersFromSample template (sample_id created)) s1)
    as [r2 s2] eqn:Hcall.
  rewrite (run_try_call _ _ _ _ _ _ _ Hcall).
  destruct r2 as [result | exc];
    [|cbn [dispatch]; destruct (isinstance exc DomainError)];
    (cbn; split;
     [intros [E | [E | []]];
      [discriminate E | injection E; intros; subst; split; reflexivity]
     |intros [_ E]; injection E as ->; right; left; reflexivity]).
Qed.

(** ** The status codes of the routes *)

(** X11: whatever the request and whatever the service does, each route
    answers with one of a few status codes; 422 stands for a query parameter,
    a path parameter or a body refused by validation.  The health route
    answers 200 without calling the service at all; the create route never
    answers 404, also when the template sample is unknown; the listing routes
    never answer 400 or 404. *)
Theorem route_status_codes (s : S) :
  run svc GET_health s = (JSONResponse 200 (JDict [("status", JStr "ok")]), s, []) /\
  (forall arg,
     In (status_of (response_of (run svc (GET_samples arg) s))) [200; 422; 500]) /\
  (forall sample_id',
     In (status_of (response_of (run svc (request_GET_sample sample_id') s)))
        [200; 404; 422; 500]) /\
  (forall payload,
     In (status_of (response_of (run svc (request_POST_samples payload) s)))
        [201; 400; 422; 500]) /\
  (forall sample_id' payload,
     In (status_of
           (response_of
              (run svc (request_POST_sample_parameters sample_id' payload) s)))
        [200; 400; 404; 422; 500]) /\
  (forall sample_id',
     In (status_of
           (response_of (run svc (request_GET_sample_parameters sample_id') s)))
        [200; 404; 422; 500]) /\
  In (status_of (response_of (run svc GET_parameter_definitions s))) [200; 500] /\
  (forall parameter_name arg,
     In (status_of
           (response_of (run svc (GET_parameter_history parameter_name arg) s)))
        [200; 422; 500]).
Proof.
  repeat split.
  - intros arg. unfold GET_samples.
    destruct (validate_bool include_deleted_query arg) as [b|];
      [|cbn; tauto].
    unfold list_samples.
    destruct (svc (ListSamples b) s) as [r s1] eqn:Hcall.
    rewrite (run_plain_route _ _ _ _ _ _ Hcall).
    destruct r; cbn; tauto.
  - intros [| sample_id']; [cbn; tauto|].
    unfold request_GET_sample, validated.
    destruct (svc (ListSamples true) s) as [r s1] eqn:Hcall.
    destruct r as [summaries | exc].
    + rewrite (run_get_sample _ _ _ _ _ Hcall).
      destruct (find _ summaries); cbn; tauto.
    + unfold GET_sample, get_sample.
      rewrite (run_plain_route _ _ _ _ _ _ Hcall). cbn; tauto.
  - intros [| payload]; [cbn; tauto|].
    unfold request_POST_samples, validated, POST_samples, route, create_sample.
    destruct (svc (CreateSample (prepared_on payload) (author_name payload)) s)
      as [r s1] eqn:Hcreate.
    rewrite run_fmap, (run_try_call _ _ _ _ _ _ _ Hcreate). cbn zeta.
    destruct r as [created | exc].
    + destruct (copy_parameters payload);
        [destruct (template_sample_id payload) as [template|]|];
        try (cbn; tauto).
      destruct (svc (CopyParametersFromSample template (sample_id created)) s1)
        as [r2 s2] eqn:Hcall.
      rewrite (run_try_call _ _ _ _ _ _ _ Hcall).
      destruct r2 as [result | exc]; [cbn; tauto|].
      cbn [dispatch]. destruct (isinstance exc DomainError); cbn; tauto.
    + cbn [dispatch]. destruct (isinstance exc DomainError); cbn; tauto.
  - intros [| sample_id'] [| payload]; try (cbn; tauto).
    unfold request_POST_sample_parameters, validated.
    unfold POST_sample_parameters, route, record_parameters. cbn zeta.
    destruct (svc (RecordParameters sample_id' (parameters payload)) s)
      as [r s1] eqn:Hcall.
    rewrite run_fmap, (run_try_call _ _ _ _ _ _ _ Hcall).
    destruct r as [updated | exc]; [cbn; tauto|].
    cbn [dispatch].
    destruct (isinstance exc UnknownSampleError); [cbn; tauto|].
    destruct (isinstance exc DomainError); cbn; tauto.
  - intros [| sample_id']; [cbn; tauto|].
    unfold request_GET_sample_parameters, validated.
    unfold GET_sample_parameters, route, list_sample_parameters.
    destruct (svc (GetSampleParameterValues sample_id') s) as [r s1] eqn:Hcall.
    rewrite run_fmap, (run_try_call _ _ _ _ _ _ _ Hcall).
    destruct r as [values | exc]; [cbn; tauto|].
    cbn [dispatch].
    destruct (isinstance exc UnknownSampleError); cbn; tauto.
  - unfold GET_parameter_definitions, list_parameter_definitions.
    destruct (svc ListParameterDefinitions s) as [r s1] eqn:Hcall.
    rewrite (run_plain_route _ _ _ _ _ _ Hcall).
    destruct r; cbn; tauto.
  - intros parameter_name arg. unfold GET_parameter_history.
    destruct (validate_int limit_query arg) as [limit|]; [|cbn; tauto].
    unfold get_parameter_history.
    destruct (svc (ListParameterValueHistory parameter_name limit) s)
      as [r s1] eqn:Hcall.
    rewrite (run_plain_route _ _ _ _ _ _ Hcall).
    destruct r; cbn; tauto.
Qed.

End Handlers.

(** * The database path, the services and [sys.path] *)

Lemma parents_app (root tail : Path) (n : nat) :
  List.length tail = S n -> parents (root ++ tail)%list n = Returned root.
Proof.
  intros Htail. unfold parents. rewrite length_app, Htail.
  assert (Hlt : (n <? List.length root + S n)%nat = true)
    by (apply Nat.ltb_lt; lia).
  rewrite Hlt.
  replace (List.length root + S n - S n)%nat with (List.length root + 0)%nat
    by lia.
  rewrite firstn_app_2. cbn [firstn]. rewrite app_nil_r. reflexivity.
Qed.

Lemma parents_short (p : Path) (n : nat) :
  (List.length p <= n)%nat -> parents p n = Raised IndexError.
Proof.
  intros Hshort. unfold parents.
  assert (Hge : (n <? List.length p)%nat = false)
    by (apply Nat.ltb_ge; exact Hshort).
  rewrite Hge. reflexivity.
Qed.

(** X12: without [LABFRAME_DB_PATH], or with an empty one, the database is
    [db/database.sqlite] under the directory two levels above the package
    of [config.py], and the path is kept in the cache.  When [config.py] sits
    less than three levels deep the call raises [IndexError] and the cache
    stays empty. *)
Theorem resolve_db_path_fallback {Services B : Type} (w : process Services B) :
  db_path_cache w = None ->
  getenv (host w) "LABFRAME_DB_PATH" = None \/
  getenv (host w) "LABFRAME_DB_PATH" = Some "" ->
  (forall project_root above package file,
     module_file (host w) = (project_root ++ [above; package; file])%list ->
     resolve_db_path w =
       (Returned (project_root ++ ["db"; "database.sqlite"])%list,
        set_db_path_cache
          (Some (project_root ++ ["db"; "database.sqlite"])%list) w)) /\
  ((List.length (module_file (host w)) <= 2)%nat ->
   resolve_db_path w = (Raised IndexError, w)).
Proof.
  intros Hcache Henv.
  assert (Hbody : resolve_db_path_body (host w) =
            match parents (module_file (host w)) 2 with
            | Returned project_root =>
                Returned (joinpath (joinpath project_root "db") "database.sqlite")
            | Raised exc => Raised exc
            end).
  { unfold resolve_db_path_body. destruct Henv as [-> | ->]; reflexivity. }
  split.
  - intros project_root above package file Hfile.
    unfold resolve_db_path, lru_cache. rewrite Hcache, Hbody, Hfile.
    rewrite (parents_app project_root [above; package; file] 2 eq_refl).
    unfold joinpath. rewrite <- app_assoc. reflexivity.
  - intros Hshort.
    unfold resolve_db_path, lru_cache. rewrite Hcache, Hbody.
    rewrite (parents_short _ _ Hshort). reflexivity.
Qed.

(** X13: a non-empty [LABFRAME_DB_PATH] decides alone, wherever [config.py]
    is: when expanding and resolving that value gives a path, this path is
    returned and kept in the cache; when it raises, as for the home directory
    of an unknown user, the exception is raised and the cache stays empty. *)
Theorem resolve_db_path_from_environment {Services B : Type}
  (w : process Services B) (v : string) :
  db_path_cache w = None ->
  getenv (host w) "LABFRAME_DB_PATH" = Some v ->
  v <> "" ->
  resolve_db_path w =
    match expanduser_resolve (host w) v with
    | Returned db_path => (Returned db_path, set_db_path_cache (Some db_path) w)
    | Raised exc => (Raised exc, w)
    end.
Proof.
  intros Hcache Henv Hv.
  unfold resolve_db_path, lru_cache, resolve_db_path_body.
  rewrite Hcache, Henv.
  destruct (String.eqb v "") eqn:Hempty.
  - apply String.eqb_eq in Hempty. contradiction.
  - destruct (expanduser_resolve (host w) v); reflexivity.
Qed.

(** X14: once [resolve_db_path] has returned a path, every later call returns the
    same path and changes nothing, whatever the environment and the rest of
    the host have become. *)
Theorem resolve_db_path_is_cached {Services B : Type}
  (w w1 : process Services B) (db_path : Path) :
  resolve_db_path w = (Returned db_path, w1) ->
  db_path_cache w1 = Some db_path /\
  forall (h : Host) (b : B),
    resolve_db_path (set_outside b (set_host h w1))
      = (Returned db_path, set_outside b (set_host h w1)).
Proof.
  unfold resolve_db_path, lru_cache. intros Hcall.
  assert (Hcached : db_path_cache w1 = Some db_path).
  { destruct (db_path_cache w) as [cached|] eqn:Hcache.
    - injection Hcall as <- <-. exact Hcache.
    - destruct (resolve_db_path_body (host w)) as [v | exc];
        [|discriminate Hcall].
      injection Hcall as <- <-. reflexivity. }
  split; [exact Hcached|].
  intros h b. cbn [db_path_cache set_outside set_host].
  rewrite Hcached. reflexivity.
Qed.

(** X15: once [get_services] has returned the services, every later call returns
    the same services without running [bootstrap] again: whatever
    [bootstrap] would do then, and whatever the host and the outside have
    become, nothing changes. *)
Theorem get_services_is_cached {Services B : Type}
  (bootstrap : Path -> B -> outcome Services * B)
  (w w1 : process Services B) (services : Services) :
  get_services bootstrap w = (Returned services, w1) ->
  forall (bootstrap' : Path -> B -> outcome Services * B) (h : Host) (b : B),
    get_services bootstrap' (set_outside b (set_host h w1))
      = (Returned services, set_outside b (set_host h w1)).
Proof.
  unfold get_services, _services, lru_cache. intros Hcall.
  assert (Hcached : services_cache w1 = Some services).
  { destruct (services_cache w) as [cached|] eqn:Hcache.
    - injection Hcall as <- <-. exact Hcache.
    - destruct (resolve_db_path w) as [r w'].
      destruct r as [db_path | exc]; [|discriminate Hcall].
      destruct (bootstrap db_path (outside w')) as [r2 b2].
      destruct r2 as [v | exc]; [|discriminate Hcall].
      injection Hcall as <- <-. reflexivity. }
  intros bootstrap' h b. cbn [services_cache set_outside set_host].
  rewrite Hcached. reflexivity.
Qed.

(** X16: a [bootstrap] that raises is not cached, the path it was given is: the
    next call of [get_services] runs [bootstrap] again, on the same path,
    also when the environment has changed in between. *)
Theorem get_services_retries_on_the_cached_path {Services B : Type}
  (bootstrap : Path -> B -> outcome Services * B)
  (w : process Services B) (db_path : Path) (exc : exn) (b1 : B) :
  services_cache w = None ->
  db_path_cache w = None ->
  resolve_db_path_body (host w) = Returned db_path ->
  bootstrap db_path (outside w) = (Raised exc, b1) ->
  let w1 := set_outside b1 (set_db_path_cache (Some db_path) w) in
  get_services bootstrap w = (Raised exc, w1) /\
  forall (h : Host) (r : outcome Services) (b2 : B),
    bootstrap db_path b1 = (r, b2) ->
    get_services bootstrap (set_host h w1) =
      (r, match r with
          | Returned services =>
              set_services_cache (Some services) (set_outside b2 (set_host h w1))
          | Raised _ => set_outside b2 (set_host h w1)
          end).
Proof.
  intros Hservices Hpath Hbody Hboot w1. split.
  - unfold get_services, _services, lru_cache, resolve_db_path.
    rewrite Hservices. unfold lru_cache. rewrite Hpath, Hbody.
    cbn [outside set_db_path_cache]. rewrite Hboot. reflexivity.
  - intros h r b2 Hretry. subst w1.
    unfold get_services, _services, lru_cache, resolve_db_path.
    cbn [services_cache set_host set_outside set_db_path_cache].
    rewrite Hservices. unfold lru_cache.
    cbn [db_path_cache outside set_host set_outside set_db_path_cache].
    rewrite Hretry. destruct r; reflexivity.
Qed.

(** X17: [CORE_SRC] is [core/src] beside the project directory: four levels above
    [app.py].  Above a shallower [app.py] there is no such directory and
    [IndexError] is raised. *)
Theorem CORE_SRC_location (app_file : Path) :
  (forall beside project above package file,
     app_file = (beside ++ [project; above; package; file])%list ->
     CORE_SRC app_file = Returned (beside ++ ["core"; "src"])%list) /\
  ((List.length app_file <= 3)%nat -> CORE_SRC app_file = Raised IndexError).
Proof.
  split.
  - intros beside project above package file ->. unfold CORE_SRC.
    rewrite (parents_app beside [project; above; package; file] 3 eq_refl).
    unfold joinpath. rewrite <- app_assoc. reflexivity.
  - intros Hshort. unfold CORE_SRC. rewrite (parents_short _ _ Hshort).
    reflexivity.
Qed.

Lemma existsb_eqb_In (x : string) (l : list string) :
  existsb (String.eqb x) l = true <-> In x l.
Proof.
  rewrite existsb_exists. split.
  - intros [y [Hin Heq]]. apply String.eqb_eq in Heq. subst. exact Hin.
  - intros Hin. exists x. split; [exact Hin | apply String.eqb_refl].
Qed.

(** X18: putting [CORE_SRC] on [sys.path]: afterwards it is on the path; the
    entries that were there keep their places, and an entry is added, in
    front, only when [CORE_SRC] was missing, so no duplicate appears; doing
    it again changes nothing. *)
Theorem extend_sys_path_once (app_file : Path) (sys_path sys_path' : list string) :
  extend_sys_path app_file sys_path = Returned sys_path' ->
  exists core_src,
    CORE_SRC app_file = Returned core_src /\
    In (path_str core_src) sys_path' /\
    (sys_path' = sys_path \/
     (sys_path' = path_str core_src :: sys_path /\
      ~ In (path_str core_src) sys_path)) /\
    (NoDup sys_path -> NoDup sys_path') /\
    extend_sys_path app_file sys_path' = Returned sys_path'.
Proof.
  unfold extend_sys_path.
  destruct (CORE_SRC app_file) as [core_src | exc]; [|discriminate].
  intros Hext. exists core_src. split; [reflexivity|].
  destruct (existsb (String.eqb (path_str core_src)) sys_path) eqn:Hthere;
    injection Hext as <-.
  - pose proof (proj1 (existsb_eqb_In _ _) Hthere) as Hin.
    repeat split; try assumption.
    + left. reflexivity.
    + intros Hnodup. exact Hnodup.
    + rewrite Hthere. reflexivity.
  - assert (Hout : ~ In (path_str core_src) sys_path).
    { intros Hin. apply existsb_eqb_In in Hin. congruence. }
    repeat split.
    + left. reflexivity.
    + right. split; [reflexivity | exact Hout].
    + intros Hnodup. constructor; assumption.
    + cbn [existsb]. rewrite String.eqb_refl. reflexivity.
Qed.

(** * The routes over the in-memory core *)

Import InMemory.

Lemma create_sample_copy_failure_is_a_warning_witness :
  exists created s1,
    core (CreateSample (mkdate 2024 5 5) None) lab = (Returned created, s1) /\
    core (CopyParametersFromSample 2 (sample_id created)) s1
      = (Raised (domain_error "invalid copy source"), s1) /\
    run core (POST_samples from_deleted_template) lab =
      (JSONResponse 201
         (JDict [("sample", model_dump created);
                 ("copied_parameters", JInt 0);
                 ("warnings", JList [JStr "invalid copy source"])]),
       s1,
       [CreateSample (mkdate 2024 5 5) None;
        CopyParametersFromSample 2 (sample_id created)]).
Proof.
  eexists _, _.
  split; [reflexivity|]. split; [reflexivity|].
  eapply (create_sample_copy_failure_is_a_warning core from_deleted_template 2
            _ (domain_error "invalid copy source") lab);
    reflexivity.
Defined.

Lemma create_sample_copy_success_witness :
  exists created s1 result s2,
    core (CreateSample (mkdate 2024 5 5) (Some "Ada")) lab = (Returned created, s1) /\
    core (CopyParametersFromSample 1 (sample_id created)) s1
      = (Returned result, s2) /\
    applied result = 1 /\
    warnings result = ["obsolete: unknown parameter"] /\
    run core (POST_samples from_template) lab =
      (JSONResponse 201
         (JDict [("sample", model_dump (sample result));
                 ("copied_parameters", JInt 1);
                 ("warnings", JList [JStr "obsolete: unknown parameter"])]),
       s2,
       [CreateSample (mkdate 2024 5 5) (Some "Ada");
        CopyParametersFromSample 1 (sample_id created)]).
Proof.
  eexists _, _, _, _.
  split; [reflexivity|]. split; [reflexivity|].
  split; [reflexivity|]. split; [reflexivity|].
  eapply (create_sample_copy_success core from_template 1); reflexivity.
Defined.

Lemma create_sample_status_witness :
  run (Outage.failing Outage.rejected) (POST_samples from_template) tt =
    (JSONResponse 400 (JDict [("detail", JStr "rejected")]), tt,
     [CreateSample (mkdate 2024 5 5) (Some "Ada")]) /\
  (exists (created : SampleItem) s1,
     run core (POST_samples without_copy) lab =
       (JSONResponse 201
          (JDict [("sample", model_dump created);
                  ("copied_parameters", JInt 0);
                  ("warnings", JList [])]),
        s1, [CreateSample (mkdate 2024 5 5) None])) /\
  (exists (created : SampleItem) (result : CopyResult) s2,
     applied result = 1 /\
     run core (POST_samples from_template) lab =
       (JSONResponse 201
          (JDict [("sample", model_dump (sample result));
                  ("copied_parameters", JInt 1);
                  ("warnings", JList [JStr "obsolete: unknown parameter"])]),
        s2,
        [CreateSample (mkdate 2024 5 5) (Some "Ada");
         CopyParametersFromSample 1 (sample_id created)])) /\
  (exists (created : SampleItem) s2,
     run core (POST_samples from_deleted_template) lab =
       (JSONResponse 201
          (JDict [("sample", model_dump created);
                  ("copied_parameters", JInt 0);
                  ("warnings", JList [JStr "invalid copy source"])]),
        s2,
        [CreateSample (mkdate 2024 5 5) None;
         CopyParametersFromSample 2 (sample_id created)])) /\
  (exists (created : SampleItem) s2,
     run Outage.copy_outage (POST_samples from_template) lab =
       (ServerError Outage.storage_error, s2,
        [CreateSample (mkdate 2024 5 5) (Some "Ada");
         CopyParametersFromSample 1 (sample_id created)])).
Proof.
  split; [|split; [|split; [|split]]].
  - exact (proj1 (create_sample_status (Outage.failing Outage.rejected)
                    from_template (Raised Outage.rejected) tt tt eq_refl)
             Outage.rejected eq_refl eq_refl).
  - eexists _, _.
    eapply (proj1 (proj2 (create_sample_status core without_copy _ lab _ eq_refl)
                     _ eq_refl)).
    left. reflexivity.
  - eexists _, _, _. split; [|
      eapply (proj1 (proj2 (proj2 (create_sample_status core from_template _ lab _
                                     eq_refl) _ eq_refl)
                       1 _ _ eq_refl eq_refl eq_refl) _ eq_refl)].
    reflexivity.
  - eexists _, _.
    eapply (proj1 (proj2 (proj2 (proj2 (create_sample_status core
                                          from_deleted_template _ lab _ eq_refl)
                                   _ eq_refl)
                            2 _ _ eq_refl eq_refl eq_refl))
              (domain_error "invalid copy source") eq_refl eq_refl).
  - eexists _, _.
    eapply (proj2 (proj2 (proj2 (proj2 (create_sample_status Outage.copy_outage
                                          from_template _ lab _ eq_refl)
                                   _ eq_refl)
                            1 _ _ eq_refl eq_refl eq_refl))
              Outage.storage_error eq_refl eq_refl).
Defined.

Lemma create_sample_copy_gate_witness :
  (In (CopyParametersFromSample 1 4)
      (calls_of (run core (POST_samples from_template) lab)) /\
   copy_parameters from_template = true /\
   template_sample_id from_template = Some 1) /\
  (copy_parameters without_copy = false /\
   ~ In (CopyParametersFromSample 1 4)
        (calls_of (run core (POST_samples without_copy) lab)) /\
   exists (created : SampleItem) s1,
     run core (POST_samples without_copy) lab =
       (JSONResponse 201
          (JDict [("sample", model_dump created);
                  ("copied_parameters", JInt 0);
                  ("warnings", JList [])]),
        s1, [CreateSample (mkdate 2024 5 5) None])) /\
  (copy_parameters
     (CreateSamplePayload_validate (mkdate 2024 5 5) None (Some (Some 1)) None)
     = false \/
   template_sample_id
     (CreateSamplePayload_validate (mkdate 2024 5 5) None (Some (Some 1)) None)
     = None).
Proof.
  assert (Hcalled : In (CopyParametersFromSample 1 4)
                       (calls_of (run core (POST_samples from_template) lab))).
  { right. left. reflexivity. }
  split; [|split].
  - split; [exact Hcalled|].
    exact (proj1 (create_sample_copy_gate core from_template lab) 1 4 Hcalled).
  - split; [reflexivity|]. split.
    + exact (proj1 (proj1 (proj2 (create_sample_copy_gate core without_copy lab))
                      (or_introl eq_refl)) 1 4).
    + eexists _, _.
      eapply (proj2 (proj1 (proj2 (create_sample_copy_gate core without_copy lab))
                       (or_introl eq_refl))).
      reflexivity.
  - exact (proj2 (proj2 (create_sample_copy_gate core without_copy lab))
             (mkdate 2024 5 5) None (Some (Some 1)) None (or_intror eq_refl)).
Defined.

Lemma record_parameters_status_witness :
  run core (POST_sample_parameters 2 (mkRecordParametersPayload [])) lab =
    (JSONResponse 404 (JDict [("detail", JStr "unknown sample")]), lab,
     [RecordParameters 2 []]) /\
  run core
    (POST_sample_parameters 1
       (mkRecordParametersPayload [mkPayload "ph" (RawText "acid")])) lab =
    (JSONResponse 400 (JDict [("detail", JStr "ph: invalid value")]), lab,
     [RecordParameters 1 [mkPayload "ph" (RawText "acid")]]) /\
  exists (updated : SampleItem) s1,
    run core
      (POST_sample_parameters 1
         (mkRecordParametersPayload [mkPayload "ph" (RawInt 7)])) lab =
      (JSONResponse 200 (JDict [("sample", model_dump updated)]), s1,
       [RecordParameters 1 [mkPayload "ph" (RawInt 7)]]).
Proof.
  split; [|split].
  - exact (proj1 (record_parameters_status core 2 (mkRecordParametersPayload [])
                    (Raised unknown_sample) lab lab eq_refl)
             unknown_sample eq_refl eq_refl).
  - exact (proj1 (proj2 (record_parameters_status core 1
                           (mkRecordParametersPayload [mkPayload "ph" (RawText "acid")])
                           (Raised (domain_error "ph: invalid value")) lab lab
                           eq_refl))
             (domain_error "ph: invalid value") eq_refl eq_refl eq_refl).
  - eexists _, _.
    eapply (proj2 (proj2 (record_parameters_status core 1
                            (@mkRecordParametersPayload dto [mkPayload "ph" (RawInt 7)])
                            _ lab _ eq_refl))).
    reflexivity.
Defined.

Lemma list_sample_parameters_status_witness :
  run core (GET_sample_parameters 9) lab =
    (JSONResponse 404 (JDict [("detail", JStr "unknown sample")]), lab,
     [GetSampleParameterValues 9]) /\
  run core (GET_sample_parameters 2) lab =
    (JSONResponse 200 (JList [dump_value (mkValue 2 "ph" 6)]), lab,
     [GetSampleParameterValues 2]).
Proof.
  split.
  - exact (proj1 (list_sample_parameters_status core 9 (Raised unknown_sample)
                    lab lab eq_refl)
             unknown_sample eq_refl eq_refl).
  - exact (proj2 (list_sample_parameters_status core 2
                    (Returned [mkValue 2 "ph" 6]) lab lab eq_refl)
             [mkValue 2 "ph" 6] eq_refl).
Defined.

Lemma get_sample_by_id_witness :
  (exists summary : SampleSummary,
     In summary (samples lab) /\ sample_id summary = 3 /\
     find (fun x : SampleSummary => sample_id x =? 3) (samples lab)
       = Some summary /\
     run core (GET_sample 3) lab =
       (JSONResponse 200 (model_dump summary), lab, [ListSamples true])) /\
  run core (GET_sample 9) lab =
    (JSONResponse 404 (JDict [("detail", JStr "Sample not found")]), lab,
     [ListSamples true]).
Proof.
  split.
  - apply (proj1 (get_sample_by_id core 3 (samples lab) lab lab eq_refl)).
    exists (mkSample 3 (mkdate 2024 3 9) (Some "Grace") false).
    split; [|reflexivity]. right. right. left. reflexivity.
  - apply (proj2 (get_sample_by_id core 9 (samples lab) lab lab eq_refl)).
    intros x [<- | [<- | [<- | []]]]; discriminate.
Defined.

Lemma soft_deleted_sample_visibility_witness :
  run core (GET_sample 2) lab =
    (JSONResponse 200 (dump_sample (mkSample 2 (mkdate 2024 2 1) None true)), lab,
     [ListSamples true]) /\
  run core (GET_samples Omitted) lab =
    (JSONResponse 200
       (JList [dump_sample (mkSample 1 (mkdate 2024 1 15) (Some "Ada") false);
               dump_sample (mkSample 3 (mkdate 2024 3 9) (Some "Grace") false)]),
     lab, [ListSamples false]) /\
  ~ In (mkSample 2 (mkdate 2024 2 1) None true)
       (filter (fun y => negb (deleted y)) (samples lab)) /\
  run core (GET_samples (Supplied true)) lab =
    (JSONResponse 200 (JList (map dump_sample (samples lab))), lab,
     [ListSamples true]).
Proof.
  apply (proj2 (proj2 (proj2 (soft_deleted_sample_visibility core 2 lab)))
           deleted (samples lab) (mkSample 2 (mkdate 2024 2 1) None true) lab lab).
  - reflexivity.
  - reflexivity.
  - right. left. reflexivity.
  - reflexivity.
  - reflexivity.
  - intros y [<- | [<- | [<- | []]]]; intros E; try reflexivity; discriminate E.
Defined.

Lemma parameter_history_limit_and_success_witness :
  (In (ListParameterValueHistory "tempC" 3)
      (calls_of (run core (GET_parameter_history "tempC" (Supplied 3)) lab)) /\
   1 <= 3 <= 200) /\
  calls_of (run core (GET_parameter_history "tempC" (Supplied 200)) lab)
    = [ListParameterValueHistory "tempC" 200] /\
  run core (GET_parameter_history "tempC" Omitted) lab =
    (JSONResponse 200
       (JList [dump_value (mkValue 1 "tempC" 25); dump_value (mkValue 1 "tempC" 24)]),
     lab, [ListParameterValueHistory "tempC" 25]).
Proof.
  assert (Hcalled : In (ListParameterValueHistory "tempC" 3)
            (calls_of (run core (GET_parameter_history "tempC" (Supplied 3)) lab))).
  { left. reflexivity. }
  split; [|split].
  - split; [exact Hcalled|].
    exact (proj2 (proj1 (parameter_history_limit_and_success core "tempC"
                           (Supplied 3) lab) "tempC" 3 Hcalled)).
  - apply (proj1 (proj2 (proj2 (parameter_history_limit_and_success core "tempC"
                                  Omitted lab)))).
    lia.
  - apply (proj2 (proj2 (proj2 (proj2
             (parameter_history_limit_and_success core "tempC" Omitted lab))))
             25 [mkValue 1 "tempC" 25; mkValue 1 "tempC" 24] lab);
      reflexivity.
Defined.

Lemma parameter_history_limit_above_ceiling_rejected_witness :
  (In (ListParameterValueHistory "tempC" 200)
      (calls_of (run core (GET_parameter_history "tempC" (Supplied 200)) lab)) /\
   0 < 200 <= 200) /\
  200 < 500 /\
  run core (GET_parameter_history "tempC" (Supplied 500)) lab
    = (RequestValidationError, lab, []).
Proof.
  assert (Hcalled : In (ListParameterValueHistory "tempC" 200)
            (calls_of (run core (GET_parameter_history "tempC" (Supplied 200)) lab))).
  { left. reflexivity. }
  split; [|split].
  - split; [exact Hcalled|].
    exact (proj1 (parameter_history_limit_above_ceiling_rejected core "tempC" lab)
             (Supplied 200) "tempC" 200 Hcalled).
  - lia.
  - apply (proj2 (parameter_history_limit_above_ceiling_rejected core "tempC" lab)
             500).
    lia.
Defined.

(** A limit of 201 is not clamped to 200 by the route: the request is refused
    with status 422 and the service is not asked for the history at all,
    while the core on its own would have answered. *)
Lemma parameter_history_limit_201_is_not_clamped :
  run core (GET_parameter_history "tempC" (Supplied 201)) lab
    = (RequestValidationError, lab, []) /\
  status_of (response_of (run core (GET_parameter_history "tempC" (Supplied 201)) lab))
    = 422 /\
  ~ In (ListParameterValueHistory "tempC" 200)
       (calls_of (run core (GET_parameter_history "tempC" (Supplied 201)) lab)) /\
  fst (core (ListParameterValueHistory "tempC" 201) lab)
    = Returned [mkValue 1 "tempC" 25; mkValue 1 "tempC" 24].
Proof.
  split; [reflexivity|]. split; [reflexivity|]. split; [|reflexivity].
  intros [].
Qed.

(** [create_sample] returns, and yet the answer is not 201: the copy that was
    asked for hits a storage failure, which is no [DomainError], and the
    request ends in a server error. *)
Lemma create_sample_returns_but_copy_outage_is_500 :
  exists created s1,
    Outage.copy_outage (CreateSample (prepared_on from_template)
                                     (author_name from_template)) lab
      = (Returned created, s1) /\
    response_of (run Outage.copy_outage (POST_samples from_template) lab)
      = ServerError Outage.storage_error /\
    status_of (response_of (run Outage.copy_outage (POST_samples from_template) lab))
      = 500 /\
    status_of (response_of (run Outage.copy_outage (POST_samples from_template) lab))
      <> 201.
Proof.
  eexists _, _. split; [reflexivity|]. split; [reflexivity|].
  split; [reflexivity|]. discriminate.
Qed.

(** * The further properties on the in-memory core and the deployment *)

Lemma list_samples_responses_witness :
  run core (GET_samples (Supplied true)) lab =
    (JSONResponse 200 (JList (map dump_sample (samples lab))), lab,
     [ListSamples true]) /\
  run (Outage.failing Outage.rejected) (GET_samples Omitted) tt =
    (ServerError Outage.rejected, tt, [ListSamples false]).
Proof.
  split.
  - exact (proj1 (list_samples_responses core (Supplied true) lab)
             true (Returned (samples lab)) lab eq_refl eq_refl).
  - exact (proj1 (list_samples_responses (Outage.failing Outage.rejected)
                    Omitted tt)
             false (Raised Outage.rejected) tt eq_refl eq_refl).
Defined.

Lemma get_sample_listing_error_escapes_witness :
  isinstance InMemory.unknown_sample UnknownSampleError = true /\
  run (Outage.failing InMemory.unknown_sample) (GET_sample 7) tt =
    (ServerError InMemory.unknown_sample, tt, [ListSamples true]).
Proof.
  split; [reflexivity|].
  exact (get_sample_listing_error_escapes (Outage.failing InMemory.unknown_sample)
           7 InMemory.unknown_sample tt tt eq_refl).
Defined.

Lemma list_parameter_definitions_responses_witness :
  run core GET_parameter_definitions lab =
    (JSONResponse 200
       (JList [JDict [("name", JStr "ph")]; JDict [("name", JStr "tempC")]]), lab,
     [ListParameterDefinitions]).
Proof.
  exact (list_parameter_definitions_responses core (Returned ["ph"; "tempC"])
           lab lab eq_refl).
Defined.

Lemma parameter_history_error_escapes_witness :
  isinstance (domain_error "salt: unknown parameter") DomainError = true /\
  run core (GET_parameter_history "salt" Omitted) lab =
    (ServerError (domain_error "salt: unknown parameter"), lab,
     [ListParameterValueHistory "salt" 25]).
Proof.
  split; [reflexivity|].
  exact (proj1 (parameter_history_error_escapes core "salt" Omitted lab)
           25 (domain_error "salt: unknown parameter") lab eq_refl eq_refl).
Defined.

Lemma list_sample_parameters_other_error_escapes_witness :
  isinstance Outage.rejected DomainError = true /\
  run (Outage.failing Outage.rejected) (GET_sample_parameters 1) tt =
    (ServerError Outage.rejected, tt, [GetSampleParameterValues 1]).
Proof.
  split; [reflexivity|].
  exact (list_sample_parameters_other_error_escapes
           (Outage.failing Outage.rejected) 1 Outage.rejected tt tt
           eq_refl eq_refl).
Defined.

Lemma record_parameters_other_error_escapes_witness :
  run (Outage.failing Outage.storage_error)
      (POST_sample_parameters 1 (RecordParametersPayload_validate None)) tt =
    (ServerError Outage.storage_error, tt, [RecordParameters 1 []]).
Proof.
  exact (record_parameters_other_error_escapes
           (Outage.failing Outage.storage_error) 1
           (RecordParametersPayload_validate None) Outage.storage_error tt tt
           eq_refl eq_refl eq_refl).
Defined.

Lemma create_sample_other_error_escapes_witness :
  run (Outage.failing Outage.storage_error) (POST_samples from_template) tt =
    (ServerError Outage.storage_error, tt,
     [CreateSample (mkdate 2024 5 5) (Some "Ada")]) /\
  exists created s1,
    core (CreateSample (mkdate 2024 5 5) (Some "Ada")) lab = (Returned created, s1) /\
    List.length (samples s1) = 4%nat /\
    run Outage.copy_outage (POST_samples from_template) lab =
      (ServerError Outage.storage_error, s1,
       [CreateSample (mkdate 2024 5 5) (Some "Ada");
        CopyParametersFromSample 1 (sample_id created)]).
Proof.
  split.
  - exact (proj1 (create_sample_other_error_escapes
                    (Outage.failing Outage.storage_error) from_template tt)
             Outage.storage_error tt eq_refl eq_refl).
  - eexists _, _. split; [reflexivity|]. split; [reflexivity|].
    eapply (proj2 (create_sample_other_error_escapes Outage.copy_outage
                     from_template lab) 1 _ Outage.storage_error);
      reflexivity.
Defined.

Lemma copy_attempted_iff_requested_witness :
  exists created s1,
    core (CreateSample (mkdate 2024 5 5) None) lab = (Returned created, s1) /\
    In (CopyParametersFromSample 1 (sample_id created))
       (calls_of (run core
          (POST_samples
             (CreateSamplePayload_validate (mkdate 2024 5 5) None
                (Some (Some 1)) (Some true))) lab)) /\
    ~ In (CopyParametersFromSample 1 (sample_id created))
         (calls_of (run core
            (POST_samples
               (CreateSamplePayload_validate (mkdate 2024 5 5) None
                  (Some None) (Some true))) lab)).
Proof.
  eexists _, _. split; [reflexivity|]. split.
  - apply (proj2 (copy_attempted_iff_requested core (mkdate 2024 5 5) None
                    (Some (Some 1)) (Some true) 1 _ lab _ eq_refl)).
    split; reflexivity.
  - intros Hin.
    apply (proj1 (copy_attempted_iff_requested core (mkdate 2024 5 5) None
                    (Some None) (Some true) 1 _ lab _ eq_refl)) in Hin.
    destruct Hin as [_ Hin]. discriminate Hin.
Defined.

Lemma resolve_db_path_fallback_witness :
  resolve_db_path (Deployment.start Deployment.plain 0) =
    (Returned ["srv"; "labframe"; "ui"; "db"; "database.sqlite"],
     set_db_path_cache (Some ["srv"; "labframe"; "ui"; "db"; "database.sqlite"])
       (Deployment.start Deployment.plain 0)) /\
  resolve_db_path (Deployment.start (Deployment.configured "") 0) =
    (Returned ["srv"; "labframe"; "ui"; "db"; "database.sqlite"],
     set_db_path_cache (Some ["srv"; "labframe"; "ui"; "db"; "database.sqlite"])
       (Deployment.start (Deployment.configured "") 0)) /\
  resolve_db_path (Deployment.start Deployment.shallow 0) =
    (Raised IndexError, Deployment.start Deployment.shallow 0).
Proof.
  split; [|split].
  - exact (proj1 (resolve_db_path_fallback (Deployment.start Deployment.plain 0)
                    eq_refl (or_introl eq_refl))
             ["srv"; "labframe"; "ui"] "api" "labframe_api" "config.py" eq_refl).
  - exact (proj1 (resolve_db_path_fallback
                    (Deployment.start (Deployment.configured "") 0)
                    eq_refl (or_intror eq_refl))
             ["srv"; "labframe"; "ui"] "api" "labframe_api" "config.py" eq_refl).
  - apply (proj2 (resolve_db_path_fallback (Deployment.start Deployment.shallow 0)
                    eq_refl (or_introl eq_refl))).
    cbn. lia.
Defined.

Lemma resolve_db_path_from_environment_witness :
  resolve_db_path (Deployment.start (Deployment.configured "~/lab.sqlite") 0) =
    (Returned ["home"; "ada"; "lab.sqlite"],
     set_db_path_cache (Some ["home"; "ada"; "lab.sqlite"])
       (Deployment.start (Deployment.configured "~/lab.sqlite") 0)) /\
  resolve_db_path (Deployment.start (Deployment.configured "~nobody/lab.sqlite") 0) =
    (Raised Deployment.RuntimeError,
     Deployment.start (Deployment.configured "~nobody/lab.sqlite") 0).
Proof.
  split.
  - apply (resolve_db_path_from_environment
             (Deployment.start (Deployment.configured "~/lab.sqlite") 0)
             "~/lab.sqlite" eq_refl eq_refl).
    discriminate.
  - apply (resolve_db_path_from_environment
             (Deployment.start (Deployment.configured "~nobody/lab.sqlite") 0)
             "~nobody/lab.sqlite" eq_refl eq_refl).
    discriminate.
Defined.

Lemma resolve_db_path_is_cached_witness :
  exists w1 : process Path nat,
    resolve_db_path (Deployment.start Deployment.plain 0)
      = (Returned ["srv"; "labframe"; "ui"; "db"; "database.sqlite"], w1) /\
    resolve_db_path (set_outside 5%nat
                       (set_host (Deployment.configured "~/lab.sqlite") w1))
      = (Returned ["srv"; "labframe"; "ui"; "db"; "database.sqlite"],
         set_outside 5%nat (set_host (Deployment.configured "~/lab.sqlite") w1)).
Proof.
  eexists. split; [reflexivity|].
  apply (proj2 (resolve_db_path_is_cached (Deployment.start Deployment.plain 0)
                  _ ["srv"; "labframe"; "ui"; "db"; "database.sqlite"] eq_refl)).
Defined.

Lemma get_services_is_cached_witness :
  exists w1 : process Path nat,
    get_services Deployment.bootstrap (Deployment.start Deployment.plain 1)
      = (Returned ["srv"; "labframe"; "ui"; "db"; "database.sqlite"], w1) /\
    outside w1 = 2%nat /\
    get_services Deployment.bootstrap
      (set_outside 0%nat (set_host (Deployment.configured "~/lab.sqlite") w1))
      = (Returned ["srv"; "labframe"; "ui"; "db"; "database.sqlite"],
         set_outside 0%nat (set_host (Deployment.configured "~/lab.sqlite") w1)).
Proof.
  eexists. split; [reflexivity|]. split; [reflexivity|].
  apply (get_services_is_cached Deployment.bootstrap
           (Deployment.start Deployment.plain 1) _
           ["srv"; "labframe"; "ui"; "db"; "database.sqlite"] eq_refl).
Defined.

Lemma get_services_retries_on_the_cached_path_witness :
  let w1 :=
    set_outside 1%nat
      (set_db_path_cache (Some ["srv"; "labframe"; "ui"; "db"; "database.sqlite"])
         (Deployment.start Deployment.plain 0)) in
  get_services Deployment.bootstrap (Deployment.start Deployment.plain 0)
    = (Raised Outage.storage_error, w1) /\
  get_services Deployment.bootstrap
    (set_host (Deployment.configured "~/lab.sqlite") w1)
    = (Returned ["srv"; "labframe"; "ui"; "db"; "database.sqlite"],
       set_services_cache (Some ["srv"; "labframe"; "ui"; "db"; "database.sqlite"])
         (set_outside 2%nat (set_host (Deployment.configured "~/lab.sqlite") w1))).
Proof.
  pose proof (get_services_retries_on_the_cached_path Deployment.bootstrap
                (Deployment.start Deployment.plain 0)
                ["srv"; "labframe"; "ui"; "db"; "database.sqlite"]
                Outage.storage_error 1%nat eq_refl eq_refl eq_refl eq_refl)
    as [Hfirst Hretry].
  split; [exact Hfirst|].
  exact (Hretry (Deployment.configured "~/lab.sqlite")
           (Returned ["srv"; "labframe"; "ui"; "db"; "database.sqlite"])
           2%nat eq_refl).
Defined.

Lemma CORE_SRC_location_witness :
  CORE_SRC Deployment.app_file = Returned ["srv"; "labframe"; "core"; "src"] /\
  CORE_SRC ["opt"; "labframe_api"; "app.py"] = Raised IndexError.
Proof.
  split.
  - exact (proj1 (CORE_SRC_location Deployment.app_file)
             ["srv"; "labframe"] "ui" "api" "labframe_api" "app.py" eq_refl).
  - apply (proj2 (CORE_SRC_location ["opt"; "labframe_api"; "app.py"])).
    cbn. lia.
Defined.

Lemma extend_sys_path_once_witness :
  extend_sys_path Deployment.app_file ["/usr/lib/python3"]
    = Returned ["/srv/labframe/core/src"; "/usr/lib/python3"] /\
  extend_sys_path Deployment.app_file
    ["/srv/labframe/core/src"; "/usr/lib/python3"]
    = Returned ["/srv/labframe/core/src"; "/usr/lib/python3"].
Proof.
  assert (Hfirst : extend_sys_path Deployment.app_file ["/usr/lib/python3"]
                   = Returned ["/srv/labframe/core/src"; "/usr/lib/python3"])
    by reflexivity.
  split; [exact Hfirst|].
  destruct (extend_sys_path_once Deployment.app_file ["/usr/lib/python3"]
              ["/srv/labframe/core/src"; "/usr/lib/python3"] Hfirst)
    as [core_src [_ [_ [_ [_ Hagain]]]]].
  exact Hagain.
Defined.
